(** * Service Weaver: the health-probing engine

    A shallow embedding of the Go backend's monitoring package
    ([HealthcheckScheduler]) together with the parts of the [models] and
    [repository] packages it relies on, and the properties of the
    engine's specification checked against it. *)

From Stdlib Require Import ZArith Lia Bool List DecimalString DecimalPos Ascii.
From stdpp Require Import gmap strings list.
Import ListNotations.

Open Scope string_scope.
Open Scope list_scope.
Open Scope Z_scope.

(** ** Go base types *)

Module Go.

(** [int] and [int64] are 64-bit two's complement integers. *)
Definition int64_min : Z := - 2 ^ 63.
Definition int64_max : Z := 2 ^ 63 - 1.

Definition wrap64 (z : Z) : Z := (z + 2 ^ 63) mod 2 ^ 64 - 2 ^ 63.

(** [fmt.Sprintf("%d", n)] and [strconv.Itoa n]: the decimal numeral,
    with a leading minus sign for negative numbers. *)
Definition Itoa (n : Z) : string := NilZero.string_of_int (Z.to_int n).

(** [strings.HasPrefix s prefix] *)
Fixpoint HasPrefix (s prefix : string) {struct prefix} : bool :=
  match prefix, s with
  | EmptyString, _ => true
  | String c p, String d t => if Ascii.eqb c d then HasPrefix t p else false
  | String _ _, EmptyString => false
  end.

(** [strings.Contains s substr]: [substr] occurs at some offset of [s]. *)
Fixpoint Contains (s substr : string) : bool :=
  HasPrefix s substr ||
  match s with
  | EmptyString => false
  | String _ t => Contains t substr
  end.

End Go.

(** ** Package [time] *)

Module time.

(** A [time.Duration] is an [int64] count of nanoseconds. *)
Definition Millisecond : Z := 1000000.
Definition Second : Z := 1000000000.

(** An instant is represented by its nanoseconds since the epoch. *)
Definition Time := Z.

(** [time.Duration(n) * time.Second] for an [int] [n]: an [int64]
    product, which wraps around. *)
Definition seconds (n : Z) : Z := Go.wrap64 (n * Second).

(** [t.Sub(u)]: the difference, saturated to the range of a Duration. *)
Definition Sub (t u : Time) : Z :=
  Z.max Go.int64_min (Z.min Go.int64_max (t - u)).

(** [time.Since(t)], with the clock reading [now] made explicit. *)
Definition Since (now t : Time) : Z := Sub now t.

(** [d.Milliseconds()], an integer division truncating toward zero. *)
Definition Milliseconds (d : Z) : Z := Z.quot d Millisecond.

(** [int(d.Seconds())].  [Seconds] adds the whole seconds [d / Second]
    and the fraction [(d % Second) / 1e9] as [float64]s and [int]
    truncates the sum toward zero.  For a whole number of seconds of
    magnitude below [2^53] every step is exact and the result is
    [d / Second]; the probes only apply it to [seconds n]. *)
Definition SecondsInt (d : Z) : Z := Z.quot d Second.

End time.

(** ** Package [models] *)

Inductive ServiceStatus : Set :=
| StatusUnknown
| StatusAlive
| StatusDead
| StatusDegraded
| StatusChecking.

Definition ServiceStatus_string (s : ServiceStatus) : string :=
  match s with
  | StatusUnknown => "unknown"
  | StatusAlive => "alive"
  | StatusDead => "dead"
  | StatusDegraded => "degraded"
  | StatusChecking => "checking"
  end.

#[global] Instance ServiceStatus_eq_dec : EqDecision ServiceStatus.
Proof. solve_decision. Defined.

(** The values an [interface{}] holds after [json.Unmarshal].  A number
    keeps its literal; objects keep their members as a list. *)
#[local] Unset Elimination Schemes.
Inductive JSONValue : Type :=
| JNull
| JBool (b : bool)
| JNumber (literal : string)
| JString (s : string)
| JArray (items : list JSONValue)
| JObject (members : list (string * JSONValue)).
#[local] Set Elimination Schemes.

(** [type JSON map[string]interface{}] *)
Abbreviation JSON := (gmap string JSONValue).

Record Service : Type := {
  ID : Z;
  Host : string;
  Port : Z;
  HealthcheckMethod : string;
  HealthcheckURL : string;
  PollingInterval : Z;
  RequestTimeout : Z;
  ExpectedStatus : Z;
  StatusMapping : JSON;
  HTTPMethod : string;
  Headers : JSON;
  Body : string;
  SSLVerify : bool;
  FollowRedirects : bool;
  TCPSendData : string;
  TCPExpectData : string;
  UDPSendData : string;
  UDPExpectData : string;
  ICMPPacketCount : Z;
  DNSQueryType : string;
  DNSExpectedResult : string;
  KafkaTopic : string;
  KafkaClientID : string;
  FrontendHostURL : string;
  CurrentStatus : ServiceStatus;
  LastChecked : option time.Time
}.

Record HealthcheckResult : Type := {
  ServiceID : Z;
  Status : option ServiceStatus;
  StatusCode : Z;
  ResponseTime : Z;
  Error : string;
  CheckedAt : time.Time
}.

Record StatusUpdate : Type := {
  su_ServiceID : Z;
  su_Status : ServiceStatus;
  su_Timestamp : time.Time
}.

(** The [services] table declares [polling_interval], [request_timeout]
    and [icmp_packet_count] as [INTEGER], a 32-bit column; every
    [Service] the scheduler reads has these fields in that range. *)
Definition pg_integer (z : Z) : Prop := - 2 ^ 31 <= z < 2 ^ 31.

(** ** Status classifier *)

Definition determineStatus (statusCode : Z) (service : Service) : ServiceStatus :=
  let fallback :=
    if statusCode =? ExpectedStatus service then StatusAlive
    else if (statusCode =? 429) || (statusCode =? 503) then StatusDegraded
    else StatusDead in
  if 0 <? Z.of_nat (size (StatusMapping service)) then
    match StatusMapping service !! Go.Itoa statusCode with
    | Some statusStr =>
        match statusStr with
        | JString status =>
            if String.eqb status "alive" then StatusAlive
            else if String.eqb status "degraded" then StatusDegraded
            else if String.eqb status "dead" then StatusDead
            else fallback
        | _ => fallback
        end
    | None => fallback
    end
  else fallback.

(** ** Scheduler: which services are due *)

Definition requiresURL (method : string) : bool :=
  String.eqb method "HTTP" || String.eqb method "HTTPS" ||
  String.eqb method "WEBSOCKET" || String.eqb method "WSS" ||
  String.eqb method "GRPC".

Definition shouldCheck (now : time.Time) (service : Service) : bool :=
  if String.eqb (Host service) "" then false
  else if requiresURL (HealthcheckMethod service)
          && String.eqb (HealthcheckURL service) "" then false
  else match LastChecked service with
       | None => true
       | Some last =>
           let interval := time.seconds (PollingInterval service) in
           interval <=? time.Since now last
       end.

(** ** The world the engine runs in

    The database tables, the hub's queue and subscribers, the log, the
    wall clock and the record of the probes' network operations. *)

(** A row of [healthcheck_results]. [checked_at] is not among the
    inserted columns: the table's [DEFAULT CURRENT_TIMESTAMP] fills it. *)
Record ResultRow : Type := {
  service_id : Z;
  status : string;
  status_code : Z;
  response_time : Z;
  error : string;
  checked_at : time.Time
}.

(** What a probe does on the network. *)
Inductive NetEvent : Type :=
| NetHTTPDo (method url : string) (headers : gmap string string)
    (body : option string) (timeout : Z) (skipVerify followRedirects : bool)
| NetDial (network address : string) (timeout : Z)
| NetSetReadDeadline (deadline : time.Time)
| NetWrite (data : string)
| NetRead (size : Z)
| NetClose
| NetExec (argv : list string)
| NetLookup (kind host : string) (timeout : Z)
| NetClient (method address : string).

(** A [*websocket.Conn], identified by its address. *)
Definition Conn := Z.

Record World : Type := {
  clock : time.Time;
  services : list Service;
  healthcheck_results : list ResultRow;
  broadcast : list StatusUpdate;
  clients : gset Conn;
  logs : list string;
  net : list NetEvent
}.

Definition with_clock (t : time.Time) (w : World) : World :=
  {| clock := t; services := services w;
     healthcheck_results := healthcheck_results w;
     broadcast := broadcast w; clients := clients w;
     logs := logs w; net := net w |}.

Definition with_services (l : list Service) (w : World) : World :=
  {| clock := clock w; services := l;
     healthcheck_results := healthcheck_results w;
     broadcast := broadcast w; clients := clients w;
     logs := logs w; net := net w |}.

Definition with_healthcheck_results (l : list ResultRow) (w : World) : World :=
  {| clock := clock w; services := services w;
     healthcheck_results := l;
     broadcast := broadcast w; clients := clients w;
     logs := logs w; net := net w |}.

Definition with_broadcast (q : list StatusUpdate) (w : World) : World :=
  {| clock := clock w; services := services w;
     healthcheck_results := healthcheck_results w;
     broadcast := q; clients := clients w;
     logs := logs w; net := net w |}.

Definition with_clients (c : gset Conn) (w : World) : World :=
  {| clock := clock w; services := services w;
     healthcheck_results := healthcheck_results w;
     broadcast := broadcast w; clients := c;
     logs := logs w; net := net w |}.

Definition with_logs (l : list string) (w : World) : World :=
  {| clock := clock w; services := services w;
     healthcheck_results := healthcheck_results w;
     broadcast := broadcast w; clients := clients w;
     logs := l; net := net w |}.

Definition with_net (l : list NetEvent) (w : World) : World :=
  {| clock := clock w; services := services w;
     healthcheck_results := healthcheck_results w;
     broadcast := broadcast w; clients := clients w;
     logs := logs w; net := l |}.

(** *** Commands over the world *)

Definition M (A : Type) : Type := World -> A * World.

Definition ret {A} (a : A) : M A := fun w => (a, w).

Definition bind {A B} (m : M A) (k : A -> M B) : M B :=
  fun w => let (a, w') := m w in k a w'.

Declare Scope go_scope.
Delimit Scope go_scope with go.
Notation "x <- m ;; k" := (bind m (fun x => k))
  (at level 100, m at next level, right associativity) : go_scope.
Notation "m ;;; k" := (bind m (fun _ => k))
  (at level 100, right associativity) : go_scope.
Open Scope go_scope.

(** [time.Now()] *)
Definition Now : M time.Time := fun w => (clock w, w).

(** The time a blocking call takes. *)
Definition elapse (d : Z) : M unit := fun w => (tt, with_clock (clock w + d) w).

(** [log.Printf] *)
Definition logPrintf (msg : string) : M unit :=
  fun w => (tt, with_logs (logs w ++ [msg]) w).

Definition netDo (e : NetEvent) : M unit :=
  fun w => (tt, with_net (net w ++ [e]) w).

(** How the outside answers one call: how long it took, and a value or
    an error. *)
Record Reply (A : Type) : Type := {
  took : Z;
  outcome : A + string
}.
Arguments took {A} _.
Arguments outcome {A} _.

Definition err_of {A} (r : Reply A) : option string :=
  match outcome r with inl _ => None | inr e => Some e end.

(** ** Package [repository] *)

Definition touch (st : ServiceStatus) (t : time.Time) (s : Service) : Service :=
  {| ID := ID s; Host := Host s; Port := Port s;
     HealthcheckMethod := HealthcheckMethod s;
     HealthcheckURL := HealthcheckURL s;
     PollingInterval := PollingInterval s;
     RequestTimeout := RequestTimeout s;
     ExpectedStatus := ExpectedStatus s;
     StatusMapping := StatusMapping s;
     HTTPMethod := HTTPMethod s; Headers := Headers s; Body := Body s;
     SSLVerify := SSLVerify s; FollowRedirects := FollowRedirects s;
     TCPSendData := TCPSendData s; TCPExpectData := TCPExpectData s;
     UDPSendData := UDPSendData s; UDPExpectData := UDPExpectData s;
     ICMPPacketCount := ICMPPacketCount s;
     DNSQueryType := DNSQueryType s;
     DNSExpectedResult := DNSExpectedResult s;
     KafkaTopic := KafkaTopic s; KafkaClientID := KafkaClientID s;
     FrontendHostURL := FrontendHostURL s;
     CurrentStatus := st; LastChecked := Some t |}.

(** [UPDATE services SET current_status = $1,
     last_checked = CURRENT_TIMESTAMP WHERE id = $2] *)
Definition UpdateServiceStatus (db : Reply unit) (serviceID : Z)
    (st : ServiceStatus) : M (option string) :=
  elapse (took db) ;;;
  match outcome db with
  | inr e => ret (Some e)
  | inl _ =>
      fun w =>
        (None,
         with_services
           (map (fun s => if ID s =? serviceID then touch st (clock w) s else s)
              (services w)) w)
  end.

Definition status_column (st : option ServiceStatus) : string :=
  match st with
  | Some s => ServiceStatus_string s
  | None => ""
  end.

(** [INSERT INTO healthcheck_results
     (service_id, status, status_code, response_time, error) VALUES ...] *)
Definition CreateHealthcheckResult (db : Reply unit)
    (result : HealthcheckResult) : M (option string) :=
  elapse (took db) ;;;
  match outcome db with
  | inr e => ret (Some e)
  | inl _ =>
      fun w =>
        (None,
         with_healthcheck_results
           (healthcheck_results w ++
              [{| service_id := ServiceID result;
                  status := status_column (Status result);
                  status_code := StatusCode result;
                  response_time := ResponseTime result;
                  error := Error result;
                  checked_at := clock w |}]) w)
  end.

(** ** The hub's queue

    [broadcast] is a channel with a buffer of 100 updates.  A plain send
    on a full channel does not proceed; [select] with a [default] branch
    takes the default instead. *)

Definition broadcast_cap : nat := 100.

Definition chan_send (u : StatusUpdate) (q : list StatusUpdate)
    : option (list StatusUpdate) :=
  if (length q <? broadcast_cap)%nat then Some (q ++ [u]) else None.

Definition updateServiceStatus (db : Reply unit) (serviceID : Z)
    (st : ServiceStatus) : M unit :=
  err <- UpdateServiceStatus db serviceID st ;;
  match err with
  | Some e => logPrintf ("Error updating service status: " +:+ e)
  | None =>
      now <- Now ;;
      let update :=
        {| su_ServiceID := serviceID; su_Status := st; su_Timestamp := now |} in
      fun w =>
        match chan_send update (broadcast w) with
        | Some q => (tt, with_broadcast q w)
        | None => logPrintf "Broadcast channel full, dropping update" w
        end
  end.

(** ** The probes *)

(** The saved output and exit state of a command run with
    [cmd.CombinedOutput()]. *)
Record CmdReply : Type := {
  cmd_took : Z;
  cmd_output : string;
  cmd_err : option string
}.

(** The outcome of a probe that drives a third-party client. *)
Inductive ClientOutcome : Type :=
| ClientAlive
| ClientFailed (degraded : bool) (err : string).

(** The answers of the outside world to the calls of one probe. *)
Record Network : Type := {
  http_NewRequest : option string;
  http_Do : Reply Z;
  net_Dial : Reply unit;
  conn_SetReadDeadline : option string;
  conn_Write : Reply unit;
  conn_Read : Reply string;
  cmd_CombinedOutput : CmdReply;
  dns_LookupIPAddr : Reply (list string);
  dns_LookupCNAME : Reply string;
  dns_LookupMX : Reply (list string);
  dns_LookupNS : Reply (list string);
  dns_LookupTXT : Reply (list string);
  client_took : Z;
  client_outcome : ClientOutcome
}.

Definition set_StatusCode (c : Z) (r : HealthcheckResult) : HealthcheckResult :=
  {| ServiceID := ServiceID r; Status := Status r; StatusCode := c;
     ResponseTime := ResponseTime r; Error := Error r;
     CheckedAt := CheckedAt r |}.

Definition set_ResponseTime (ms : Z) (r : HealthcheckResult) : HealthcheckResult :=
  {| ServiceID := ServiceID r; Status := Status r; StatusCode := StatusCode r;
     ResponseTime := ms; Error := Error r; CheckedAt := CheckedAt r |}.

Definition set_Status (st : ServiceStatus) (r : HealthcheckResult) : HealthcheckResult :=
  {| ServiceID := ServiceID r; Status := Some st; StatusCode := StatusCode r;
     ResponseTime := ResponseTime r; Error := Error r;
     CheckedAt := CheckedAt r |}.

Definition set_Error (e : string) (r : HealthcheckResult) : HealthcheckResult :=
  {| ServiceID := ServiceID r; Status := Status r; StatusCode := StatusCode r;
     ResponseTime := ResponseTime r; Error := e; CheckedAt := CheckedAt r |}.

(** A probe receives the result record by pointer and returns a status
    and an error; here it returns the record as it left it. *)
Definition Probe : Type :=
  HealthcheckResult -> M (HealthcheckResult * (ServiceStatus * option string)).

Definition failed (result : HealthcheckResult) (st : ServiceStatus) (e : string)
    : M (HealthcheckResult * (ServiceStatus * option string)) :=
  ret (result, (st, Some e)).

(** The common last two lines of every probe:
    [result.ResponseTime = int(time.Since(start).Milliseconds())]
    and [return models.StatusAlive, nil]. *)
Definition alive_since (start : time.Time) (result : HealthcheckResult)
    : M (HealthcheckResult * (ServiceStatus * option string)) :=
  now <- Now ;;
  ret (set_ResponseTime (time.Milliseconds (time.Since now start)) result,
       (StatusAlive, None)).

(** [defer conn.Close()] *)
Definition closing {A} (m : M A) : M A :=
  a <- m ;; netDo NetClose ;;; ret a.

Definition address (service : Service) : string :=
  Host service +:+ ":" +:+ Go.Itoa (Port service).

(** The headers with a string value; [req.Header.Set] receives each. *)
Definition string_headers (h : JSON) : gmap string string :=
  omap (fun v => match v with JString s => Some s | _ => None end) h.

Definition performHTTPHealthcheck (nw : Network) (service : Service) : Probe :=
  fun result =>
  start <- Now ;;
  let protocol :=
    if String.eqb (HealthcheckMethod service) "HTTPS" then "https" else "http" in
  let url := protocol +:+ "://" +:+ Host service +:+ ":" +:+
             Go.Itoa (Port service) +:+ HealthcheckURL service in
  let timeout := time.seconds (RequestTimeout service) in
  let skipVerify :=
    String.eqb (HealthcheckMethod service) "HTTPS" && negb (SSLVerify service) in
  let body :=
    if negb (String.eqb (Body service) "") &&
       (String.eqb (HTTPMethod service) "POST" ||
        String.eqb (HTTPMethod service) "PUT")
    then Some (Body service) else None in
  match http_NewRequest nw with
  | Some e => failed result StatusDead e
  | None =>
      let headers :=
        if 0 <? Z.of_nat (size (Headers service))
        then string_headers (Headers service) else ∅ in
      netDo (NetHTTPDo (HTTPMethod service) url headers body timeout
               skipVerify (FollowRedirects service)) ;;;
      elapse (took (http_Do nw)) ;;;
      match outcome (http_Do nw) with
      | inr e => failed result StatusDead e
      | inl code =>
          now <- Now ;;
          let result := set_StatusCode code result in
          let result :=
            set_ResponseTime (time.Milliseconds (time.Since now start)) result in
          ret (result, (determineStatus code service, None))
      end
  end.

Definition expect_error (expected response : string) : string :=
  "expected response '" +:+ expected +:+ "' not found in '" +:+ response +:+ "'".

Definition performTCPHealthcheck (nw : Network) (service : Service) : Probe :=
  fun result =>
  start <- Now ;;
  let timeout := time.seconds (RequestTimeout service) in
  netDo (NetDial "tcp" (address service) timeout) ;;;
  elapse (took (net_Dial nw)) ;;;
  match outcome (net_Dial nw) with
  | inr e => failed result StatusDead e
  | inl _ =>
      closing (
        if negb (String.eqb (TCPSendData service) "") then
          netDo (NetWrite (TCPSendData service)) ;;;
          elapse (took (conn_Write nw)) ;;;
          match outcome (conn_Write nw) with
          | inr e => failed result StatusDead e
          | inl _ =>
              if negb (String.eqb (TCPExpectData service) "") then
                netDo (NetRead 1024) ;;;
                elapse (took (conn_Read nw)) ;;;
                match outcome (conn_Read nw) with
                | inr e => failed result StatusDead e
                | inl response =>
                    if negb (Go.Contains response (TCPExpectData service))
                    then failed result StatusDead
                           (expect_error (TCPExpectData service) response)
                    else alive_since start result
                end
              else alive_since start result
          end
        else alive_since start result)
  end.

Definition performUDPHealthcheck (nw : Network) (service : Service) : Probe :=
  fun result =>
  start <- Now ;;
  let timeout := time.seconds (RequestTimeout service) in
  netDo (NetDial "udp" (address service) timeout) ;;;
  elapse (took (net_Dial nw)) ;;;
  match outcome (net_Dial nw) with
  | inr e => failed result StatusDead e
  | inl _ =>
      closing (
        now <- Now ;;
        netDo (NetSetReadDeadline (now + timeout)) ;;;
        match conn_SetReadDeadline nw with
        | Some e => failed result StatusDead e
        | None =>
            if String.eqb (UDPSendData service) "" then
              failed result StatusDead "UDP send data is required"
            else
              netDo (NetWrite (UDPSendData service)) ;;;
              elapse (took (conn_Write nw)) ;;;
              match outcome (conn_Write nw) with
              | inr e => failed result StatusDead e
              | inl _ =>
                  if negb (String.eqb (UDPExpectData service) "") then
                    netDo (NetRead 1024) ;;;
                    elapse (took (conn_Read nw)) ;;;
                    match outcome (conn_Read nw) with
                    | inr e => failed result StatusDead e
                    | inl response =>
                        if negb (Go.Contains response (UDPExpectData service))
                        then failed result StatusDead
                               (expect_error (UDPExpectData service) response)
                        else alive_since start result
                    end
                  else alive_since start result
              end
        end)
  end.

Definition ping_argv (service : Service) : list string :=
  let timeout := time.seconds (RequestTimeout service) in
  let packetCount := ICMPPacketCount service in
  let packetCount := if packetCount <=? 0 then 3 else packetCount in
  ["ping"; "-c"; Go.Itoa packetCount;
   "-W"; Go.Itoa (time.SecondsInt timeout); Host service].

Definition performICMPHealthcheck (nw : Network) (service : Service) : Probe :=
  fun result =>
  start <- Now ;;
  netDo (NetExec (ping_argv service)) ;;;
  elapse (cmd_took (cmd_CombinedOutput nw)) ;;;
  match cmd_err (cmd_CombinedOutput nw) with
  | Some e => failed result StatusDead e
  | None =>
      let outputStr := cmd_output (cmd_CombinedOutput nw) in
      if Go.Contains outputStr "0 received"
      then failed result StatusDead ("ping failed: " +:+ outputStr)
      else alive_since start result
  end.

(** [found] after the loop over the records. *)
Definition found_equal (expected : string) (records : list string) : bool :=
  existsb (fun r => String.eqb r expected) records.

Definition found_containing (expected : string) (records : list string) : bool :=
  existsb (fun r => Go.Contains r expected) records.

(** One [case] of the query-type switch whose lookup yields a list of
    records: the lookup, then the check of the expected result. *)
Definition dns_records (kind : string) (lookup : Reply (list string))
    (found : string -> list string -> bool) (missing : string -> string)
    (service : Service) (start : time.Time) : Probe :=
  fun result =>
  netDo (NetLookup kind (Host service) (time.seconds (RequestTimeout service))) ;;;
  elapse (took lookup) ;;;
  match outcome lookup with
  | inr e => failed result StatusDead e
  | inl records =>
      if negb (String.eqb (DNSExpectedResult service) "") &&
         negb (found (DNSExpectedResult service) records)
      then failed result StatusDead (missing (DNSExpectedResult service))
      else alive_since start result
  end.

Definition performDNSHealthcheck (nw : Network) (service : Service) : Probe :=
  fun result =>
  start <- Now ;;
  let timeout := time.seconds (RequestTimeout service) in
  let expected := DNSExpectedResult service in
  let queryType := DNSQueryType service in
  if String.eqb queryType "A" then
    dns_records "IPAddr" (dns_LookupIPAddr nw) found_equal
      (fun x => "expected IP '" +:+ x +:+ "' not found in DNS response")
      service start result
  else if String.eqb queryType "CNAME" then
    netDo (NetLookup "CNAME" (Host service) timeout) ;;;
    elapse (took (dns_LookupCNAME nw)) ;;;
    match outcome (dns_LookupCNAME nw) with
    | inr e => failed result StatusDead e
    | inl cname =>
        if negb (String.eqb expected "") && negb (String.eqb cname expected)
        then failed result StatusDead
               ("expected CNAME '" +:+ expected +:+ "' but got '" +:+ cname +:+ "'")
        else alive_since start result
    end
  else if String.eqb queryType "MX" then
    dns_records "MX" (dns_LookupMX nw) found_equal
      (fun x => "expected MX record '" +:+ x +:+ "' not found")
      service start result
  else if String.eqb queryType "NS" then
    dns_records "NS" (dns_LookupNS nw) found_equal
      (fun x => "expected NS record '" +:+ x +:+ "' not found")
      service start result
  else if String.eqb queryType "TXT" then
    dns_records "TXT" (dns_LookupTXT nw) found_containing
      (fun x => "expected TXT record containing '" +:+ x +:+ "' not found")
      service start result
  else
    failed result StatusDead ("unsupported DNS query type: " +:+ queryType).

(** The WebSocket, gRPC, SMTP, FTP, SSH, Redis, MySQL, PostgreSQL,
    MongoDB and Kafka probes each drive a client of their own.  All have
    one shape: [start := time.Now()], the client's session, and then
    either an early [return] of [StatusDead] or [StatusDegraded] with
    the error, or the common last two lines. *)
Definition performClientHealthcheck (nw : Network) (service : Service) : Probe :=
  fun result =>
  start <- Now ;;
  netDo (NetClient (HealthcheckMethod service) (address service)) ;;;
  elapse (client_took nw) ;;;
  match client_outcome nw with
  | ClientFailed degraded e =>
      failed result (if degraded then StatusDegraded else StatusDead) e
  | ClientAlive => alive_since start result
  end.

(** ** Probe runner *)

(** The [switch service.HealthcheckMethod] of [performHealthcheck]. *)
Definition dispatchProbe (nw : Network) (service : Service) : Probe :=
  fun result =>
  let method := HealthcheckMethod service in
  if String.eqb method "HTTP" || String.eqb method "HTTPS" then
    performHTTPHealthcheck nw service result
  else if String.eqb method "TCP" then performTCPHealthcheck nw service result
  else if String.eqb method "UDP" then performUDPHealthcheck nw service result
  else if String.eqb method "ICMP" then performICMPHealthcheck nw service result
  else if String.eqb method "DNS" then performDNSHealthcheck nw service result
  else if String.eqb method "WEBSOCKET" then performClientHealthcheck nw service result
  else if String.eqb method "GRPC" then performClientHealthcheck nw service result
  else if String.eqb method "SMTP" then performClientHealthcheck nw service result
  else if String.eqb method "FTP" then performClientHealthcheck nw service result
  else if String.eqb method "SSH" then performClientHealthcheck nw service result
  else if String.eqb method "REDIS" then performClientHealthcheck nw service result
  else if String.eqb method "MYSQL" then performClientHealthcheck nw service result
  else if String.eqb method "POSTGRES" then performClientHealthcheck nw service result
  else if String.eqb method "MONGODB" then performClientHealthcheck nw service result
  else if String.eqb method "KAFKA" then performClientHealthcheck nw service result
  else
    let err := "unsupported health check method: " +:+ method in
    ret (set_Error err result, (StatusDead, Some err)).

(** The answers of the database and the network to one run of
    [performHealthcheck]. *)
Record Dispatch : Type := {
  db_checking : Reply unit;
  network : Network;
  db_insert : Reply unit;
  db_final : Reply unit
}.

(** [performHealthcheck] up to the [switch]: the [Checking] update and
    the construction of the result record. *)
Definition beginHealthcheck (db : Reply unit) (service : Service)
    : M HealthcheckResult :=
  start <- Now ;;
  updateServiceStatus db (ID service) StatusChecking ;;;
  now <- Now ;;
  let responseTime := time.Milliseconds (time.Since now start) in
  now' <- Now ;;
  ret {| ServiceID := ID service; Status := None; StatusCode := 0;
         ResponseTime := responseTime; Error := ""; CheckedAt := now' |}.

(** [performHealthcheck] after the [switch]: the result is completed and
    saved, and the service's status updated. *)
Definition recordHealthcheck (env : Dispatch) (service : Service)
    (probed : HealthcheckResult * (ServiceStatus * option string)) : M unit :=
  let '(result, (st, err)) := probed in
  let result := set_Status st result in
  let result :=
    match err with
    | Some e => set_Error e result
    | None => result
    end in
  saved <- CreateHealthcheckResult (db_insert env) result ;;
  match saved with
  | Some e => logPrintf ("Error saving healthcheck result: " +:+ e)
  | None => ret tt
  end ;;;
  updateServiceStatus (db_final env) (ID service) st.

Definition performHealthcheck (env : Dispatch) (service : Service) : M unit :=
  result <- beginHealthcheck (db_checking env) service ;;
  probed <- dispatchProbe (network env) service result ;;
  recordHealthcheck env service probed.

(** ** Broadcast hub *)

Definition AddClient (conn : Conn) : M unit :=
  fun w => (tt, with_clients (clients w ∪ {[conn]}) w).

Definition RemoveClient (conn : Conn) : M unit :=
  fun w => (tt, with_clients (clients w ∖ {[conn]}) w).

(** The body of the loop over the clients: [WriteJSON], and on an error
    the client is closed and deleted. *)
Definition broadcastTo (write : Conn -> StatusUpdate -> option string)
    (update : StatusUpdate) (client : Conn) : M unit :=
  match write client update with
  | Some e =>
      logPrintf ("Error broadcasting to client: " +:+ e) ;;;
      fun w => (tt, with_clients (clients w ∖ {[client]}) w)
  | None => ret tt
  end.

Fixpoint forEach {A} (body : A -> M unit) (l : list A) : M unit :=
  match l with
  | [] => ret tt
  | x :: l' => body x ;;; forEach body l'
  end.

(** One round of [broadcastHandler]'s [select] with an update received
    from the queue; [None] when the queue is empty and the receive has
    to wait.  The clients are visited in the order of [elements]. *)
Definition broadcastHandler (write : Conn -> StatusUpdate -> option string)
    (w : World) : option World :=
  match broadcast w with
  | [] => None
  | update :: q =>
      Some (snd (forEach (broadcastTo write update) (elements (clients w))
                   (with_broadcast q w)))
  end.

(** ** Scheduler *)

Definition tick_period : Z := 5 * time.Second.

(** [SELECT ... FROM services] *)
Definition GetAllServices (db : Reply unit) : M (list Service + string) :=
  elapse (took db) ;;;
  match outcome db with
  | inr e => ret (inr e)
  | inl _ => fun w => (inl (services w), w)
  end.

(** One [case <-ticker.C] of [scheduleHealthchecks]; the result lists
    the services for which [go h.performHealthcheck(service)] runs. *)
Definition scheduleTick (db : Reply unit) : M (list Service) :=
  r <- GetAllServices db ;;
  match r with
  | inr e => logPrintf ("Error getting services: " +:+ e) ;;; ret []
  | inl all => now <- Now ;; ret (filter (fun s => shouldCheck now s = true) all)
  end.

(** *** The engine as a transition system

    The goroutines started by [go h.performHealthcheck(service)] run
    beside the scheduler.  A task is a started [performHealthcheck] that
    has not returned: [Dispatched] before its [Checking] update,
    [Probing] from then on. *)
Inductive Phase : Type :=
| Dispatched
| Probing (result : HealthcheckResult).

Record Task : Type := {
  task_service : Service;
  task_phase : Phase
}.

Record System : Type := {
  world : World;
  tasks : list Task;
  next_tick : time.Time
}.

Definition spawn (s : Service) : Task :=
  {| task_service := s; task_phase := Dispatched |}.

(** The system after the scheduler handled a tick. *)
Definition after_tick (db : Reply unit) (sys : System) : System :=
  {| world := snd (scheduleTick db (world sys));
     tasks := tasks sys ++ map spawn (fst (scheduleTick db (world sys)));
     next_tick := next_tick sys + tick_period |}.

(** The system after the task between [before] and [after] ran up to
    its probe. *)
Definition after_begin (db : Reply unit) (before after : list Task)
    (s : Service) (sys : System) : System :=
  {| world := snd (beginHealthcheck db s (world sys));
     tasks := before ++
       {| task_service := s;
          task_phase := Probing (fst (beginHealthcheck db s (world sys))) |}
       :: after;
     next_tick := next_tick sys |}.

(** The system after that task ran its probe, recorded the outcome and
    returned. *)
Definition after_finish (env : Dispatch) (before after : list Task)
    (s : Service) (result : HealthcheckResult) (sys : System) : System :=
  {| world := snd ((probed <- dispatchProbe (network env) s result ;;
                    recordHealthcheck env s probed) (world sys));
     tasks := before ++ after;
     next_tick := next_tick sys |}.

Definition after_wait (d : Z) (sys : System) : System :=
  {| world := with_clock (clock (world sys) + d) (world sys);
     tasks := tasks sys; next_tick := next_tick sys |}.

Inductive step : System -> System -> Prop :=
| step_wait (sys : System) (d : Z) :
    0 <= d -> step sys (after_wait d sys)
| step_tick (sys : System) (db : Reply unit) :
    0 <= took db ->
    next_tick sys <= clock (world sys) ->
    step sys (after_tick db sys)
| step_begin (sys : System) (db : Reply unit) (before after : list Task)
    (s : Service) :
    0 <= took db ->
    tasks sys = before ++ spawn s :: after ->
    step sys (after_begin db before after s sys)
| step_finish (sys : System) (env : Dispatch) (before after : list Task)
    (s : Service) (result : HealthcheckResult) :
    tasks sys = before ++ {| task_service := s; task_phase := Probing result |}
                  :: after ->
    step sys (after_finish env before after s result sys).

Inductive reachable (init : System) : System -> Prop :=
| reach_init : reachable init init
| reach_step (a b : System) : reachable init a -> step a b -> reachable init b.

(** The number of probes of service [id] in flight. *)
Definition in_flight (id : Z) (sys : System) : nat :=
  length (filter (fun t => ID (task_service t) = id) (tasks sys)).

(** The state in which the probe of a run of [performHealthcheck]
    returns, with what it returned. *)
Definition probed (env : Dispatch) (service : Service)
    : M (HealthcheckResult * (ServiceStatus * option string)) :=
  result <- beginHealthcheck (db_checking env) service ;;
  dispatchProbe (network env) service result.

Definition probe_result {W} (r : HealthcheckResult * (ServiceStatus * option string) * W)
    : HealthcheckResult := fst (fst r).

Definition probe_status {W} (r : HealthcheckResult * (ServiceStatus * option string) * W)
    : ServiceStatus := fst (snd (fst r)).

Definition probe_error {W} (r : HealthcheckResult * (ServiceStatus * option string) * W)
    : option string := snd (snd (fst r)).

(** ** Vocabulary of the specification *)

(** The status tags a [statusMapping] entry may name. *)
Definition status_tags : list (string * ServiceStatus) :=
  [("alive", StatusAlive); ("degraded", StatusDegraded); ("dead", StatusDead)].

(** [statusMapping] contains the string form of [c], mapped to the tag
    of [st]. *)
Definition mapped_to (c : Z) (s : Service) (st : ServiceStatus) : Prop :=
  exists tag, In (tag, st) status_tags /\
              StatusMapping s !! Go.Itoa c = Some (JString tag).

(** The rules that apply without a mapping: the expected code is
    [Alive], 429 and 503 are [Degraded], anything else is [Dead]. *)
Definition by_expected_status (c : Z) (s : Service) (st : ServiceStatus) : Prop :=
  (c = ExpectedStatus s -> st = StatusAlive) /\
  (c <> ExpectedStatus s -> c = 429 \/ c = 503 -> st = StatusDegraded) /\
  (c <> ExpectedStatus s -> c <> 429 -> c <> 503 -> st = StatusDead).

(** The methods that need a URL path. *)
Definition url_methods : list string :=
  ["HTTP"; "HTTPS"; "WEBSOCKET"; "WSS"; "GRPC"].

(** The polling interval has elapsed since the last check, or there was
    none. Instants are in nanoseconds. *)
Definition due (now : time.Time) (s : Service) : Prop :=
  LastChecked s = None \/
  exists last, LastChecked s = Some last /\
               PollingInterval s * time.Second <= now - last.

(** The packet count handed to ping lies in the range 1..10. *)
Definition ping_count_clamped (s : Service) : Prop :=
  exists n, 1 <= n <= 10 /\ nth_error (ping_argv s) 2 = Some (Go.Itoa n).




(** At most one probe per service is in flight in every state the
    engine reaches from [init]. *)
Definition at_most_one_in_flight (init : System) : Prop :=
  forall sys id, reachable init sys -> (in_flight id sys <= 1)%nat.

(** ** Scenarios

    Concrete services, with the columns not named set to the defaults
    of the [services] table. *)
Definition scenario (method url : string) (interval timeout : Z)
    (mapping : JSON) (count : Z) (queryType sendData : string)
    (last : option time.Time) : Service :=
  {| ID := 1; Host := "h"; Port := 80;
     HealthcheckMethod := method; HealthcheckURL := url;
     PollingInterval := interval; RequestTimeout := timeout;
     ExpectedStatus := 200; StatusMapping := mapping;
     HTTPMethod := "GET"; Headers := ∅; Body := "";
     SSLVerify := true; FollowRedirects := true;
     TCPSendData := ""; TCPExpectData := "";
     UDPSendData := sendData; UDPExpectData := "";
     ICMPPacketCount := count;
     DNSQueryType := queryType; DNSExpectedResult := "";
     KafkaTopic := ""; KafkaClientID := "service-weaver-healthcheck";
     FrontendHostURL := "";
     CurrentStatus := StatusUnknown; LastChecked := last |}.

(** An HTTP service expecting 200 that maps 200 to "degraded" and 418
    to a tag the classifier does not know. *)
Definition http_mapped : Service :=
  scenario "HTTP" "/healthz" 30 2
    {[ "200" := JString "degraded"; "418" := JString "teapot" ]}
    3 "A" "" None.

(** An HTTP service last checked at second 100, polled every 30 s. *)
Definition http_checked : Service :=
  scenario "HTTP" "/healthz" 30 2 ∅ 3 "A" "" (Some (100 * time.Second)).

Definition ok {A} (d : Z) (a : A) : Reply A :=
  {| took := d; outcome := inl a |}.

Definition fails {A} (d : Z) (e : string) : Reply A :=
  {| took := d; outcome := inr e |}.

(** A network on which the HTTP request, the dial and the ping command
    answer as given and everything else succeeds at once. *)
Definition network_of (http : Reply Z) (dial : Reply unit) (cmd : CmdReply)
    : Network :=
  {| http_NewRequest := None; http_Do := http; net_Dial := dial;
     conn_SetReadDeadline := None;
     conn_Write := ok 0 tt; conn_Read := ok 0 "PONG";
     cmd_CombinedOutput := cmd;
     dns_LookupIPAddr := ok 0 ["10.0.0.1"; "10.0.0.2"];
     dns_LookupCNAME := ok 0 "h.";
     dns_LookupMX := ok 0 ["mx.h."];
     dns_LookupNS := ok 0 ["ns.h."];
     dns_LookupTXT := ok 0 ["v=spf1 -all"];
     client_took := 0; client_outcome := ClientAlive |}.

Definition ping_ok : CmdReply :=
  {| cmd_took := 2 * time.Second;
     cmd_output := "3 packets transmitted, 3 received, 0% packet loss";
     cmd_err := None |}.

Definition network_up : Network :=
  network_of (ok (50 * time.Millisecond) 200) (ok time.Millisecond tt) ping_ok.

(** The host name does not resolve: the dial fails. *)
Definition network_no_host : Network :=
  network_of (fails time.Millisecond "dial tcp: lookup h: no such host")
    (fails time.Millisecond "dial udp: lookup h: no such host") ping_ok.

(** The server refuses the connection after two seconds. *)
Definition network_refused : Network :=
  network_of (fails (2 * time.Second) "connection refused")
    (fails (2 * time.Second) "connection refused") ping_ok.

Definition world_at (t : time.Time) (table : list Service) : World :=
  {| clock := t; services := table; healthcheck_results := [];
     broadcast := []; clients := ∅; logs := []; net := [] |}.

Definition blank_result : HealthcheckResult :=
  {| ServiceID := 1; Status := None; StatusCode := 0; ResponseTime := 0;
     Error := ""; CheckedAt := 0 |}.

(** An ICMP service configured with fifty packets. *)
Definition icmp_fifty : Service :=
  scenario "ICMP" "" 30 2 ∅ 50 "A" "" None.

(** DNS services asking for the AAAA and the SOA records. *)
Definition dns_aaaa : Service := scenario "DNS" "" 30 2 ∅ 3 "AAAA" "" None.
Definition dns_soa : Service := scenario "DNS" "" 30 2 ∅ 3 "SOA" "" None.

(** A UDP service without send data. *)
Definition udp_no_data : Service := scenario "UDP" "" 30 2 ∅ 3 "A" "" None.


(** An HTTP service never checked before. *)
Definition http_plain : Service :=
  scenario "HTTP" "/healthz" 30 2 ∅ 3 "A" "" None.

(** The database answers in 7 ms and 1 ms; all writes succeed. *)
Definition dispatch_on (nw : Network) : Dispatch :=
  {| db_checking := ok (7 * time.Millisecond) tt; network := nw;
     db_insert := ok time.Millisecond tt;
     db_final := ok time.Millisecond tt |}.

(** The final status update fails. *)
Definition dispatch_status_write_fails : Dispatch :=
  {| db_checking := ok (7 * time.Millisecond) tt; network := network_up;
     db_insert := ok time.Millisecond tt;
     db_final := fails time.Millisecond "pq: connection reset" |}.

(** The insert of the result fails. *)
Definition dispatch_insert_fails : Dispatch :=
  {| db_checking := ok (7 * time.Millisecond) tt; network := network_up;
     db_insert := fails time.Millisecond "pq: connection reset";
     db_final := ok time.Millisecond tt |}.

(** A TCP service polled every 5 s with a timeout of 30 s, and the
    engine at its start with that service in the table. *)
Definition slow_service : Service :=
  scenario "TCP" "" 5 30 ∅ 3 "A" "" None.

Definition engine_start : System :=
  {| world := world_at 0 [slow_service]; tasks := [];
     next_tick := tick_period |}.

Definition db_now : Reply unit := ok 0 tt.

(** The first tick has started a probe of [slow_service], the probe has
    written [Checking] and is waiting on the network; five more seconds
    have passed. *)
Definition first_probe_running : System :=
  after_wait tick_period
    (after_begin db_now [] [] slow_service
       (after_tick db_now (after_wait tick_period engine_start))).

(** The second tick has started another probe, which has written
    [Checking] as well. *)
Definition second_probe_running : System :=
  let ticked := after_tick db_now first_probe_running in
  after_begin db_now (tasks first_probe_running) []
    (touch StatusChecking tick_period slow_service) ticked.

(** A hub whose queue is full, with two subscribers; writes to
    subscriber 2 fail. *)
Definition update_alive : StatusUpdate :=
  {| su_ServiceID := 1; su_Status := StatusAlive; su_Timestamp := 0 |}.

Definition hub_full : World :=
  {| clock := 0; services := [http_plain]; healthcheck_results := [];
     broadcast := repeat update_alive broadcast_cap;
     clients := {[ 1; 2 ]}; logs := []; net := [] |}.

Definition write_fails_for_2 (c : Conn) (u : StatusUpdate) : option string :=
  if c =? 2 then Some "write: broken pipe" else None.

(** ** Vocabulary for the further properties *)

(** A service without the two columns the engine writes. *)
Definition recipe (s : Service) : Service :=
  {| ID := ID s; Host := Host s; Port := Port s;
     HealthcheckMethod := HealthcheckMethod s;
     HealthcheckURL := HealthcheckURL s;
     PollingInterval := PollingInterval s;
     RequestTimeout := RequestTimeout s;
     ExpectedStatus := ExpectedStatus s;
     StatusMapping := StatusMapping s;
     HTTPMethod := HTTPMethod s; Headers := Headers s; Body := Body s;
     SSLVerify := SSLVerify s; FollowRedirects := FollowRedirects s;
     TCPSendData := TCPSendData s; TCPExpectData := TCPExpectData s;
     UDPSendData := UDPSendData s; UDPExpectData := UDPExpectData s;
     ICMPPacketCount := ICMPPacketCount s;
     DNSQueryType := DNSQueryType s;
     DNSExpectedResult := DNSExpectedResult s;
     KafkaTopic := KafkaTopic s; KafkaClientID := KafkaClientID s;
     FrontendHostURL := FrontendHostURL s;
     CurrentStatus := StatusUnknown; LastChecked := None |}.

(** No call on the network takes a negative time. *)
Definition patient_network (nw : Network) : Prop :=
  0 <= took (http_Do nw) /\ 0 <= took (net_Dial nw) /\
  0 <= took (conn_Write nw) /\ 0 <= took (conn_Read nw) /\
  0 <= cmd_took (cmd_CombinedOutput nw) /\
  0 <= took (dns_LookupIPAddr nw) /\ 0 <= took (dns_LookupCNAME nw) /\
  0 <= took (dns_LookupMX nw) /\ 0 <= took (dns_LookupNS nw) /\
  0 <= took (dns_LookupTXT nw) /\ 0 <= client_took nw.

(** Nor does a call on the database. *)
Definition patient (env : Dispatch) : Prop :=
  0 <= took (db_checking env) /\ patient_network (network env) /\
  0 <= took (db_insert env) /\ 0 <= took (db_final env).

(** The statuses a probe can answer. *)
Definition verdicts : list ServiceStatus :=
  [StatusAlive; StatusDead; StatusDegraded].

(** The update of service [id] to status [st] stamped [t]. *)
Definition update_of (id : Z) (st : ServiceStatus) (t : time.Time)
    : StatusUpdate :=
  {| su_ServiceID := id; su_Status := st; su_Timestamp := t |}.

(** The write of status [st] at time [t] to the rows of service [id]. *)
Definition written (id : Z) (st : ServiceStatus) (t : time.Time)
    (table : list Service) : list Service :=
  map (fun r => if ID r =? id then touch st t r else r) table.

(** The row that [CreateHealthcheckResult] inserts at time [t] for a
    result completed with status [st] and error [err]. *)
Definition row_of (result : HealthcheckResult) (st : ServiceStatus)
    (err : option string) (t : time.Time) : ResultRow :=
  {| service_id := ServiceID result;
     status := ServiceStatus_string st;
     status_code := StatusCode result;
     response_time := ResponseTime result;
     error := match err with Some e => e | None => Error result end;
     checked_at := t |}.

(** The close of a connection. *)
Definition is_close (e : NetEvent) : bool :=
  match e with
  | NetClose => true
  | _ => false
  end.

(** The text of the expected reply was found: there was a write that
    succeeded and a read that returned a reply containing it. *)
Definition reply_matches (nw : Network) (expected : string) : Prop :=
  expected = "" \/
  exists response, outcome (conn_Read nw) = inl response /\
                   Go.Contains response expected = true.

(** [broadcastHandler]'s loop for as long as the queue has an update to
    receive, at most [fuel] rounds. *)
Fixpoint drain (write : Conn -> StatusUpdate -> option string) (fuel : nat)
    (w : World) : World :=
  match fuel with
  | O => w
  | S fuel' =>
      match broadcastHandler write w with
      | None => w
      | Some w' => drain write fuel' w'
      end
  end.

(** ** The Kafka probe's session

    What the broker client answers to the calls of
    [performKafkaHealthcheck]. *)
Record KafkaReplies : Type := {
  kafka_NewClient : option string;
  kafka_Closed : bool;
  kafka_Controller : option string;
  kafka_Brokers : nat;
  kafka_Topics : list string + string;
  kafka_Partitions : list Z + string
}.

(** The session of [performKafkaHealthcheck], from [sarama.NewClient] to
    the last early [return]. *)
Definition kafkaSession (k : KafkaReplies) (service : Service) : ClientOutcome :=
  match kafka_NewClient k with
  | Some e => ClientFailed false e
  | None =>
      if negb (kafka_Closed k) then
        match kafka_Controller k with
        | Some e => ClientFailed false e
        | None =>
            if (kafka_Brokers k =? 0)%nat then
              ClientFailed false "no brokers available"
            else if negb (String.eqb (KafkaTopic service) "") then
              match kafka_Topics k with
              | inr e => ClientFailed false e
              | inl topics =>
                  let topicExists :=
                    existsb (fun topic => String.eqb topic (KafkaTopic service))
                      topics in
                  if negb topicExists then
                    ClientFailed true
                      ("topic '" +:+ KafkaTopic service +:+ "' does not exist")
                  else
                    match kafka_Partitions k with
                    | inr e => ClientFailed true e
                    | inl partitions =>
                        if (length partitions =? 0)%nat then
                          ClientFailed true
                            ("topic '" +:+ KafkaTopic service +:+
                             "' has no partitions")
                        else ClientAlive
                    end
              end
            else ClientAlive
        end
      else ClientFailed false "kafka client is closed"
  end.

(** The network on which the client's session ends as [o] after [d]. *)
Definition with_client (d : Z) (o : ClientOutcome) (nw : Network) : Network :=
  {| http_NewRequest := http_NewRequest nw; http_Do := http_Do nw;
     net_Dial := net_Dial nw;
     conn_SetReadDeadline := conn_SetReadDeadline nw;
     conn_Write := conn_Write nw; conn_Read := conn_Read nw;
     cmd_CombinedOutput := cmd_CombinedOutput nw;
     dns_LookupIPAddr := dns_LookupIPAddr nw;
     dns_LookupCNAME := dns_LookupCNAME nw;
     dns_LookupMX := dns_LookupMX nw;
     dns_LookupNS := dns_LookupNS nw;
     dns_LookupTXT := dns_LookupTXT nw;
     client_took := d; client_outcome := o |}.

Definition performKafkaHealthcheck (k : KafkaReplies) (took : Z)
    (nw : Network) (service : Service) : Probe :=
  performClientHealthcheck (with_client took (kafkaSession k service) nw) service.

(** The topic is among those the broker lists and has a partition. *)
Definition topic_usable (k : KafkaReplies) (topic : string) : Prop :=
  exists topics partitions,
    kafka_Topics k = inl topics /\ In topic topics /\
    kafka_Partitions k = inl partitions /\ partitions <> [].

(** The broker was reached: the client was created and is open, the
    controller answered and at least one broker is known. *)
Definition broker_reached (k : KafkaReplies) : Prop :=
  kafka_NewClient k = None /\ kafka_Closed k = false /\
  kafka_Controller k = None /\ kafka_Brokers k <> 0%nat.

(** A broker that lists the topics [topics], each with one partition. *)
Definition broker_with (topics : list string) : KafkaReplies :=
  {| kafka_NewClient := None; kafka_Closed := false;
     kafka_Controller := None; kafka_Brokers := 1;
     kafka_Topics := inl topics; kafka_Partitions := inl [0] |}.

Definition kafka_service (topic : string) : Service :=
  {| ID := 1; Host := "h"; Port := 9092;
     HealthcheckMethod := "KAFKA"; HealthcheckURL := "";
     PollingInterval := 30; RequestTimeout := 5;
     ExpectedStatus := 200; StatusMapping := ∅;
     HTTPMethod := "GET"; Headers := ∅; Body := "";
     SSLVerify := true; FollowRedirects := true;
     TCPSendData := ""; TCPExpectData := "";
     UDPSendData := ""; UDPExpectData := "";
     ICMPPacketCount := 3;
     DNSQueryType := "A"; DNSExpectedResult := "";
     KafkaTopic := topic; KafkaClientID := "";
     FrontendHostURL := "";
     CurrentStatus := StatusUnknown; LastChecked := None |}.

(** ** The PostgreSQL probe's host *)

(** [s[n:]] *)
Fixpoint string_from (n : nat) (s : string) : string :=
  match n, s with
  | O, _ => s
  | S n', String _ t => string_from n' t
  | S _, EmptyString => EmptyString
  end.

(** [strings.Split(s, sep)[0]] for a separator that is not empty: [s] up
    to the first occurrence of [sep], all of [s] when there is none. *)
Fixpoint SplitHead (s sep : string) : string :=
  if Go.HasPrefix s sep then EmptyString
  else match s with
       | EmptyString => EmptyString
       | String c t => String c (SplitHead t sep)
       end.

(** The host [performPostgresHealthcheck] connects to. *)
Definition postgresHost (service : Service) : string :=
  let host := Host service in
  if negb (String.eqb (FrontendHostURL service) "") then
    let frontendURL := FrontendHostURL service in
    let frontendURL :=
      if Go.HasPrefix frontendURL "http://" then string_from 7 frontendURL
      else if Go.HasPrefix frontendURL "https://" then string_from 8 frontendURL
      else frontendURL in
    let frontendURL :=
      if Go.Contains frontendURL "/" then SplitHead frontendURL "/"
      else frontendURL in
    let frontendURL :=
      if Go.Contains frontendURL ":" then SplitHead frontendURL ":"
      else frontendURL in
    frontendURL
  else host.

(** A service with the frontend host URL [url]. *)
Definition postgres_service (url : string) : Service :=
  {| ID := 1; Host := "db.internal"; Port := 5432;
     HealthcheckMethod := "POSTGRES"; HealthcheckURL := "";
     PollingInterval := 30; RequestTimeout := 5;
     ExpectedStatus := 200; StatusMapping := ∅;
     HTTPMethod := "GET"; Headers := ∅; Body := "";
     SSLVerify := true; FollowRedirects := true;
     TCPSendData := ""; TCPExpectData := "";
     UDPSendData := ""; UDPExpectData := "";
     ICMPPacketCount := 3;
     DNSQueryType := "A"; DNSExpectedResult := "";
     KafkaTopic := ""; KafkaClientID := "";
     FrontendHostURL := url;
     CurrentStatus := StatusUnknown; LastChecked := None |}.

(** The character [c] occurs in [s]. *)
Fixpoint occurs (c : Ascii.ascii) (s : string) : Prop :=
  match s with
  | EmptyString => False
  | String d t => c = d \/ occurs c t
  end.

(** [rest] is empty or begins with a slash or a colon. *)
Definition ends_host (rest : string) : Prop :=
  rest = "" \/ Go.HasPrefix rest "/" = true \/ Go.HasPrefix rest ":" = true.

(** ** Package [repository]: editing and deleting services *)

(** The row [row] with the columns that [UpdateService] sets taken from
    [service]; [current_status] and [last_checked] are not among them. *)
Definition edited (service row : Service) : Service :=
  {| ID := ID row; Host := Host service; Port := Port service;
     HealthcheckMethod := HealthcheckMethod service;
     HealthcheckURL := HealthcheckURL service;
     PollingInterval := PollingInterval service;
     RequestTimeout := RequestTimeout service;
     ExpectedStatus := ExpectedStatus service;
     StatusMapping := StatusMapping service;
     HTTPMethod := HTTPMethod service; Headers := Headers service;
     Body := Body service;
     SSLVerify := SSLVerify service;
     FollowRedirects := FollowRedirects service;
     TCPSendData := TCPSendData service;
     TCPExpectData := TCPExpectData service;
     UDPSendData := UDPSendData service;
     UDPExpectData := UDPExpectData service;
     ICMPPacketCount := ICMPPacketCount service;
     DNSQueryType := DNSQueryType service;
     DNSExpectedResult := DNSExpectedResult service;
     KafkaTopic := KafkaTopic service;
     KafkaClientID := KafkaClientID service;
     FrontendHostURL := FrontendHostURL row;
     CurrentStatus := CurrentStatus row; LastChecked := LastChecked row |}.

(** [UPDATE services SET name = $1, ..., kafka_client_id = $29,
     updated_at = CURRENT_TIMESTAMP WHERE id = $30] *)
Definition UpdateService (db : Reply unit) (service : Service)
    : M (option string) :=
  elapse (took db) ;;;
  match outcome db with
  | inr e => ret (Some e)
  | inl _ =>
      fun w =>
        (None,
         with_services
           (map (fun r => if ID r =? ID service then edited service r else r)
              (services w)) w)
  end.

(** [DELETE FROM services WHERE id = $1]; the rows of
    [healthcheck_results] that refer to the service go with it
    ([ON DELETE CASCADE]). *)
Definition DeleteService (db : Reply unit) (id : Z) : M (option string) :=
  elapse (took db) ;;;
  match outcome db with
  | inr e => ret (Some e)
  | inl _ =>
      fun w =>
        (None,
         with_healthcheck_results
           (filter (fun row => service_id row <> id) (healthcheck_results w))
           (with_services (filter (fun r => ID r <> id) (services w)) w))
  end.

(** The columns of a row that the engine writes, with the row's id. *)
Definition latest (r : Service) : Z * ServiceStatus * option time.Time :=
  (ID r, CurrentStatus r, LastChecked r).

(** A copy of [s] with the id [id]. *)
Definition renumbered (id : Z) (s : Service) : Service :=
  {| ID := id; Host := Host s; Port := Port s;
     HealthcheckMethod := HealthcheckMethod s;
     HealthcheckURL := HealthcheckURL s;
     PollingInterval := PollingInterval s;
     RequestTimeout := RequestTimeout s;
     ExpectedStatus := ExpectedStatus s;
     StatusMapping := StatusMapping s;
     HTTPMethod := HTTPMethod s; Headers := Headers s; Body := Body s;
     SSLVerify := SSLVerify s; FollowRedirects := FollowRedirects s;
     TCPSendData := TCPSendData s; TCPExpectData := TCPExpectData s;
     UDPSendData := UDPSendData s; UDPExpectData := UDPExpectData s;
     ICMPPacketCount := ICMPPacketCount s;
     DNSQueryType := DNSQueryType s;
     DNSExpectedResult := DNSExpectedResult s;
     KafkaTopic := KafkaTopic s; KafkaClientID := KafkaClientID s;
     FrontendHostURL := FrontendHostURL s;
     CurrentStatus := CurrentStatus s; LastChecked := LastChecked s |}.

(** ** The viewer's store

    The [onmessage] handler of the store's WebSocket
    ([connectWebSocket] in [useStore.js]).  Values are the primitive
    JavaScript values, with the integers for numbers; an object is the
    map of its own properties. *)
Module JS.

Inductive Value : Type :=
| Undefined
| Null
| Bool (b : bool)
| Number (n : Z)
| Str (s : string).

Abbreviation Object := (gmap string Value).

(** [o.k] *)
Definition get (o : Object) (k : string) : Value :=
  match o !! k with
  | Some v => v
  | None => Undefined
  end.

Definition truthy (v : Value) : bool :=
  match v with
  | Undefined | Null => false
  | Bool b => b
  | Number n => negb (n =? 0)
  | Str s => negb (String.eqb s "")
  end.

(** [a || b] *)
Definition or (a b : Value) : Value := if truthy a then a else b.

(** [a === b] *)
Definition strict_eq (a b : Value) : bool :=
  match a, b with
  | Undefined, Undefined => true
  | Null, Null => true
  | Bool x, Bool y => Bool.eqb x y
  | Number x, Number y => x =? y
  | Str x, Str y => String.eqb x y
  | _, _ => false
  end.

(** [ws.onmessage] for the parsed message [update], on the store's
    [services]; [None] is a [services] that is null or undefined. *)
Definition onmessage (update : Object) (services : option (list Object))
    : list Object :=
  let serviceId := or (get update "service_id") (get update "ServiceID") in
  let status := or (get update "status") (get update "Status") in
  map (fun service =>
         if strict_eq (get service "id") serviceId
         then <["current_status" := status]> service
         else service)
    (match services with Some l => l | None => [] end).

(** The message [WriteJSON] sends for a status update, by the tags of
    the struct; [stamp] is the timestamp as the encoder prints it. *)
Definition wire (u : StatusUpdate) (stamp : string) : Object :=
  {[ "service_id" := Number (su_ServiceID u);
     "status" := Str (ServiceStatus_string (su_Status u));
     "timestamp" := Str stamp ]}.

End JS.

(** A service as the viewer holds it. *)
Definition viewed (id : Z) (st : string) : JS.Object :=
  {[ "id" := JS.Number id; "name" := JS.Str "api";
     "current_status" := JS.Str st ]}.

(** Ping sent ten packets and got ten replies. *)
Definition ping_ten : CmdReply :=
  {| cmd_took := 9 * time.Second;
     cmd_output := "10 packets transmitted, 10 received, 0% packet loss";
     cmd_err := None |}.


(** A DNS service that expects the address 10.0.0.1 among the A
    records. *)
Definition dns_a_expected : Service :=
  {| ID := 1; Host := "example.test"; Port := 53;
     HealthcheckMethod := "DNS"; HealthcheckURL := "";
     PollingInterval := 30; RequestTimeout := 1;
     ExpectedStatus := 200; StatusMapping := ∅;
     HTTPMethod := "GET"; Headers := ∅; Body := "";
     SSLVerify := true; FollowRedirects := true;
     TCPSendData := ""; TCPExpectData := "";
     UDPSendData := ""; UDPExpectData := "";
     ICMPPacketCount := 3;
     DNSQueryType := "A"; DNSExpectedResult := "10.0.0.1";
     KafkaTopic := ""; KafkaClientID := "";
     FrontendHostURL := "";
     CurrentStatus := StatusUnknown; LastChecked := None |}.

(** * Properties *)

(** ** Helper lemmas *)

Lemma seconds_exact (n : Z) :
  -9223372036 <= n <= 9223372036 -> time.seconds n = n * time.Second.
Proof.
  intros Hn. unfold time.seconds, Go.wrap64, time.Second.
  rewrite Z.mod_small; lia.
Qed.

Lemma seconds_pg_integer (n : Z) :
  pg_integer n -> time.seconds n = n * time.Second.
Proof. unfold pg_integer. intros Hn. apply seconds_exact. lia. Qed.

(** [strings.HasPrefix] and [strings.Contains] as the library documents
    them. *)
Lemma HasPrefix_spec (s p : string) :
  Go.HasPrefix s p = true <-> exists t, s = p +:+ t.
Proof.
  revert s. induction p as [| c p IH]; intros s; simpl.
  - destruct s; (split; [intros _; eexists; reflexivity | reflexivity]).
  - destruct s as [| d s].
    + split; [discriminate | intros [t Ht]; discriminate].
    + destruct (Ascii.eqb_spec c d) as [-> | Hne].
      * rewrite IH. split; intros [t Ht]; exists t; [by rewrite Ht |].
        by injection Ht.
      * split; [discriminate | intros [t Ht]]. injection Ht as Hc _. congruence.
Qed.

Lemma Contains_spec (s sub : string) :
  Go.Contains s sub = true <-> exists pre post, s = pre +:+ sub +:+ post.
Proof.
  induction s as [| d s IH]; simpl.
  - rewrite orb_false_r, HasPrefix_spec. split.
    + intros [t Ht]. exists "", t. exact Ht.
    + intros (pre & post & H). destruct pre; [by exists post |]. discriminate.
  - rewrite orb_true_iff, HasPrefix_spec, IH. split.
    + intros [[t Ht] | (pre & post & H)].
      * exists "", t. exact Ht.
      * exists (String d pre), post. simpl. by rewrite H.
    + intros (pre & post & H). destruct pre as [| c pre].
      * left. by exists post.
      * right. injection H as _ H. by exists pre, post.
Qed.

Lemma lookup_nonempty (m : JSON) (k : string) (v : JSONValue) :
  m !! k = Some v -> (0 <? Z.of_nat (size m)) = true.
Proof.
  intros Hk. apply Z.ltb_lt.
  destruct (decide (size m = 0%nat)) as [H0 | H0]; [| lia].
  apply map_size_empty_inv in H0. subst m. by rewrite lookup_empty in Hk.
Qed.

Lemma string_eqb_false (a b : string) : a <> b -> String.eqb a b = false.
Proof. intros H. by apply String.eqb_neq. Qed.

(** The classifier's fall-through obeys the expected-status rules. *)
Lemma fallback_by_expected (c : Z) (s : Service) :
  by_expected_status c s
    (if c =? ExpectedStatus s then StatusAlive
     else if (c =? 429) || (c =? 503) then StatusDegraded else StatusDead).
Proof.
  unfold by_expected_status.
  destruct (Z.eqb_spec c (ExpectedStatus s)) as [He | He];
    destruct (Z.eqb_spec c 429) as [H1 | H1];
    destruct (Z.eqb_spec c 503) as [H2 | H2]; simpl;
    repeat split; intros; try reflexivity; try contradiction; intuition lia.
Qed.

(** ** Status classifier *)

Lemma determineStatus_mapped (c : Z) (s : Service) (st : ServiceStatus) :
  mapped_to c s st -> determineStatus c s = st.
Proof.
  intros (tag & Htag & Hlk). unfold determineStatus.
  rewrite (lookup_nonempty _ _ _ Hlk), Hlk.
  simpl in Htag.
  destruct Htag as [H | [H | [H | []]]]; inversion H; subst; reflexivity.
Qed.

Lemma determineStatus_unmapped (c : Z) (s : Service) :
  (~ exists st, mapped_to c s st) ->
  by_expected_status c s (determineStatus c s).
Proof.
  intros Hno. unfold determineStatus.
  destruct (0 <? Z.of_nat (size (StatusMapping s)));
    [| apply fallback_by_expected].
  destruct (StatusMapping s !! Go.Itoa c) as [v |] eqn:Hlk;
    [| apply fallback_by_expected].
  destruct v as [| | | tag | |]; try apply fallback_by_expected.
  destruct (String.eqb_spec tag "alive") as [-> | _].
  { exfalso. apply Hno. exists StatusAlive, "alive". simpl. auto. }
  destruct (String.eqb_spec tag "degraded") as [-> | _].
  { exfalso. apply Hno. exists StatusDegraded, "degraded". simpl. auto. }
  destruct (String.eqb_spec tag "dead") as [-> | _].
  { exfalso. apply Hno. exists StatusDead, "dead". simpl. auto. }
  apply fallback_by_expected.
Qed.

(** C2. For every response code [c] and service: a [statusMapping]
    entry for the string form of [c] naming "alive", "degraded" or
    "dead" decides the status, whatever [expectedStatus] is; without
    such an entry the status is [Alive] when [c] equals
    [expectedStatus], else [Degraded] when [c] is 429 or 503, else
    [Dead]. *)
Theorem determineStatus_mapping_wins (c : Z) (s : Service) :
  (forall st, mapped_to c s st -> determineStatus c s = st) /\
  ((~ exists st, mapped_to c s st) ->
   by_expected_status c s (determineStatus c s)).
Proof.
  split.
  - intros st. apply determineStatus_mapped.
  - apply determineStatus_unmapped.
Qed.

(** C10. The classifier only ever answers [Alive], [Degraded] or [Dead];
    an entry for the code whose value is not one of the strings
    "alive", "degraded", "dead" is ignored, and the expected-status and
    429/503 rules decide. *)
Theorem determineStatus_terminal_status (c : Z) (s : Service) :
  In (determineStatus c s) [StatusAlive; StatusDegraded; StatusDead] /\
  (forall v, StatusMapping s !! Go.Itoa c = Some v ->
             (forall tag, v = JString tag ->
                          tag <> "alive" /\ tag <> "degraded" /\ tag <> "dead") ->
             by_expected_status c s (determineStatus c s)).
Proof.
  split.
  - unfold determineStatus.
    repeat match goal with
           | |- context [if ?b then _ else _] => destruct b
           | |- context [match ?x with _ => _ end] => destruct x
           end; simpl; auto.
  - intros v Hlk Hv.
    apply determineStatus_unmapped.
    intros (st & tag & Htag & Hlk').
    rewrite Hlk in Hlk'. injection Hlk' as ->.
    destruct (Hv tag eq_refl) as (Ha & Hd & Hx).
    simpl in Htag.
    destruct Htag as [H | [H | [H | []]]]; inversion H; subst; congruence.
Qed.

Example determineStatus_mapping_wins_witness :
  mapped_to 200 http_mapped StatusDegraded /\
  determineStatus 200 http_mapped = StatusDegraded /\
  by_expected_status 503 http_mapped (determineStatus 503 http_mapped).
Proof.
  assert (Hm : mapped_to 200 http_mapped StatusDegraded).
  { exists "degraded". split; [simpl; auto | vm_compute; reflexivity]. }
  split; [exact Hm |]. split.
  - apply (proj1 (determineStatus_mapping_wins 200 http_mapped)). exact Hm.
  - apply (proj2 (determineStatus_mapping_wins 503 http_mapped)).
    intros (st & tag & _ & Hlk). vm_compute in Hlk. discriminate Hlk.
Defined.

Example determineStatus_terminal_status_witness :
  StatusMapping http_mapped !! Go.Itoa 418 = Some (JString "teapot") /\
  by_expected_status 418 http_mapped (determineStatus 418 http_mapped).
Proof.
  split; [vm_compute; reflexivity |].
  apply (proj2 (determineStatus_terminal_status 418 http_mapped)
           (JString "teapot")).
  - vm_compute; reflexivity.
  - intros tag Htag. injection Htag as <-. repeat split; discriminate.
Defined.

(** ** Scheduler: which services are due *)

Lemma requiresURL_iff (method : string) :
  requiresURL method = true <-> In method url_methods.
Proof.
  unfold requiresURL, url_methods. simpl.
  rewrite !orb_true_iff, !String.eqb_eq. intuition congruence.
Qed.

Lemma Since_ge (now last d : Z) :
  Go.int64_min < d <= Go.int64_max ->
  d <= time.Since now last <-> d <= now - last.
Proof.
  unfold time.Since, time.Sub, Go.int64_min, Go.int64_max.
  intros [Hlo Hhi]. split; intros H; lia.
Qed.

Lemma due_when_fits (now : time.Time) (s : Service) :
  -9223372036 <= PollingInterval s <= 9223372036 ->
  match LastChecked s with
  | None => true
  | Some last => time.seconds (PollingInterval s) <=? time.Since now last
  end = true <-> due now s.
Proof.
  intros Hp. unfold due.
  destruct (LastChecked s) as [last |].
  - rewrite Z.leb_le, seconds_exact by exact Hp.
    rewrite Since_ge
      by (unfold Go.int64_min, Go.int64_max, time.Second; lia).
    split.
    + intros H. right. exists last. auto.
    + intros [H | (l & Hl & H)]; [discriminate | congruence].
  - split; auto.
Qed.

Lemma shouldCheck_when_fits (now : time.Time) (s : Service) :
  -9223372036 <= PollingInterval s <= 9223372036 ->
  shouldCheck now s = true <->
  Host s <> "" /\
  (In (HealthcheckMethod s) url_methods -> HealthcheckURL s <> "") /\
  due now s.
Proof.
  intros Hp. unfold shouldCheck.
  rewrite <- requiresURL_iff, <- (due_when_fits now s Hp).
  destruct (String.eqb_spec (Host s) "") as [Hh | Hh].
  { split; [discriminate | tauto]. }
  destruct (requiresURL (HealthcheckMethod s)) eqn:Hm;
    destruct (String.eqb_spec (HealthcheckURL s) "") as [Hu | Hu]; simpl;
    split; try discriminate; try tauto;
    intros H; repeat split; auto; discriminate.
Qed.

(** C3. For a service as the scheduler reads it from the [services]
    table, [shouldCheck] answers true exactly when the host is not
    empty, the healthcheck path is not empty if the method is HTTP,
    HTTPS, WEBSOCKET, WSS or GRPC, and the service was never checked or
    at least [pollingInterval] seconds have passed since the last
    check. *)
Theorem shouldCheck_iff (now : time.Time) (s : Service) :
  pg_integer (PollingInterval s) ->
  shouldCheck now s = true <->
  Host s <> "" /\
  (In (HealthcheckMethod s) url_methods -> HealthcheckURL s <> "") /\
  due now s.
Proof.
  intros Hp. apply shouldCheck_when_fits. unfold pg_integer in Hp. lia.
Qed.

Example shouldCheck_iff_witness :
  pg_integer (PollingInterval http_checked) /\
  (shouldCheck (130 * time.Second) http_checked = true <->
   Host http_checked <> "" /\
   (In (HealthcheckMethod http_checked) url_methods ->
    HealthcheckURL http_checked <> "") /\
   due (130 * time.Second) http_checked).
Proof.
  assert (Hp : pg_integer (PollingInterval http_checked))
    by (vm_compute; split; [discriminate | reflexivity]).
  split; [exact Hp |].
  exact (shouldCheck_iff (130 * time.Second) http_checked Hp).
Defined.

(** ** ICMP probe *)

Lemma SecondsInt_seconds (n : Z) :
  pg_integer n -> time.SecondsInt (time.seconds n) = n.
Proof.
  intros Hn. rewrite seconds_pg_integer by exact Hn.
  unfold time.SecondsInt, time.Second. apply Z.quot_mul. discriminate.
Qed.

(** C6, as the code has it. The ping utility is run with the configured
    packet count when that is at least 1, with no upper bound, and with
    3 packets when it is zero or negative; the per-packet wait is
    [timeoutSec]; the probe is [Dead] exactly when the command fails or
    its output contains "0 received", and [Alive] otherwise. *)
Theorem performICMPHealthcheck_ping (nw : Network) (s : Service)
    (result : HealthcheckResult) (w : World) :
  pg_integer (RequestTimeout s) ->
  let r := performICMPHealthcheck nw s result w in
  let dead := cmd_err (cmd_CombinedOutput nw) <> None \/
              Go.Contains (cmd_output (cmd_CombinedOutput nw)) "0 received" = true in
  (exists n, 1 <= n /\
             (1 <= ICMPPacketCount s -> n = ICMPPacketCount s) /\
             (ICMPPacketCount s <= 0 -> n = 3) /\
             net (snd r) =
               net w ++ [NetExec ["ping"; "-c"; Go.Itoa n;
                                  "-W"; Go.Itoa (RequestTimeout s); Host s]]) /\
  (probe_status r = StatusDead <-> dead) /\
  (probe_status r = StatusAlive <-> ~ dead).
Proof.
  intros Ht r dead. split.
  - exists (if ICMPPacketCount s <=? 0 then 3 else ICMPPacketCount s).
    destruct (Z.leb_spec (ICMPPacketCount s) 0) as [Hc | Hc].
    + repeat split; try lia.
      subst r. unfold performICMPHealthcheck, ping_argv, bind, Now, netDo, elapse.
      rewrite SecondsInt_seconds by exact Ht.
      destruct (Z.leb_spec (ICMPPacketCount s) 0); [| lia].
      simpl. destruct (cmd_err (cmd_CombinedOutput nw)); [reflexivity |].
      destruct (Go.Contains _ _); reflexivity.
    + repeat split; try lia.
      subst r. unfold performICMPHealthcheck, ping_argv, bind, Now, netDo, elapse.
      rewrite SecondsInt_seconds by exact Ht.
      destruct (Z.leb_spec (ICMPPacketCount s) 0); [lia |].
      simpl. destruct (cmd_err (cmd_CombinedOutput nw)); [reflexivity |].
      destruct (Go.Contains _ _); reflexivity.
  - subst r dead.
    unfold performICMPHealthcheck, probe_status, bind, Now, netDo, elapse. simpl.
    destruct (cmd_err (cmd_CombinedOutput nw)) as [e |]; simpl.
    + split; split; intros H; try reflexivity; try discriminate.
      * left. discriminate.
      * exfalso. apply H. left. discriminate.
    + destruct (Go.Contains (cmd_output (cmd_CombinedOutput nw)) "0 received");
        simpl; split; split; intros H; try reflexivity; try discriminate.
      * right. reflexivity.
      * exfalso. apply H. right. reflexivity.
      * destruct H as [H | H]; [contradiction | discriminate].
      * intros [H' | H']; [contradiction | discriminate].
Qed.

Example performICMPHealthcheck_ping_witness :
  pg_integer (RequestTimeout icmp_fifty) /\
  net (snd (performICMPHealthcheck network_up icmp_fifty blank_result
              (world_at 0 []))) =
    [NetExec ["ping"; "-c"; "50"; "-W"; "2"; "h"]].
Proof.
  assert (Ht : pg_integer (RequestTimeout icmp_fifty))
    by (vm_compute; split; [discriminate | reflexivity]).
  split; [exact Ht |].
  destruct (performICMPHealthcheck_ping network_up icmp_fifty blank_result
              (world_at 0 []) Ht) as [(n & _ & Hn & _ & Hnet) _].
  rewrite Hnet, (Hn ltac:(vm_compute; discriminate)). reflexivity.
Defined.

(** C6 as stated fails: with 50 packets configured the count handed to
    ping is 50, outside 1..10. *)
Lemma ping_count_not_clamped :
  net (snd (performICMPHealthcheck network_up icmp_fifty blank_result
              (world_at 0 []))) =
    [NetExec ["ping"; "-c"; "50"; "-W"; "2"; "h"]] /\
  ~ ping_count_clamped icmp_fifty.
Proof.
  split; [reflexivity |].
  intros (n & Hn & H).
  assert (Hcases : n = 1 \/ n = 2 \/ n = 3 \/ n = 4 \/ n = 5 \/
                   n = 6 \/ n = 7 \/ n = 8 \/ n = 9 \/ n = 10) by lia.
  repeat destruct Hcases as [-> | Hcases]; try subst n;
    vm_compute in H; discriminate H.
Qed.

(** ** DNS probe *)

Lemma found_equal_In (expected : string) (records : list string) :
  found_equal expected records = true <-> In expected records.
Proof.
  unfold found_equal. rewrite existsb_exists. split.
  - intros (r & Hin & Heq). apply String.eqb_eq in Heq. by subst.
  - intros Hin. exists expected. split; [exact Hin | apply String.eqb_refl].
Qed.

Lemma found_containing_spec (expected : string) (records : list string) :
  found_containing expected records = true <->
  exists r, In r records /\ Go.Contains r expected = true.
Proof. unfold found_containing. apply existsb_exists. Qed.

Lemma dns_records_alive (kind : string) (lookup : Reply (list string))
    (found : string -> list string -> bool) (missing : string -> string)
    (s : Service) (start : time.Time) (result : HealthcheckResult) (w : World) :
  probe_status (dns_records kind lookup found missing s start result w) =
    StatusAlive <->
  exists records, outcome lookup = inl records /\
                  (DNSExpectedResult s = "" \/
                   found (DNSExpectedResult s) records = true).
Proof.
  unfold dns_records, probe_status, alive_since, failed, bind, Now, netDo,
    elapse, ret. simpl.
  destruct (outcome lookup) as [records | e]; simpl.
  - destruct (String.eqb_spec (DNSExpectedResult s) "") as [He | He]; simpl.
    + split; [intros _; exists records; auto | reflexivity].
    + destruct (found (DNSExpectedResult s) records) eqn:Hf; simpl.
      * split; [intros _; exists records; auto | reflexivity].
      * split; [discriminate |].
        intros (r & Hr & [H | H]); [contradiction |].
        injection Hr as <-. congruence.
  - split; [discriminate | intros (r & Hr & _); discriminate].
Qed.

(** X27. The match rules of the query types the probe has a case for:
    with an expected result set, the probe is [Alive] exactly when the
    lookup succeeds and any address is equal for A, the name is equal
    for CNAME, any record host is equal for MX and NS, any record
    contains the expected text for TXT; without one, exactly when the
    lookup succeeds. *)
Lemma performDNSHealthcheck_match_rules (nw : Network) (s : Service)
    (result : HealthcheckResult) (w : World) :
  let alive := probe_status (performDNSHealthcheck nw s result w) = StatusAlive in
  let expected := DNSExpectedResult s in
  (DNSQueryType s = "A" ->
   alive <-> exists ips, outcome (dns_LookupIPAddr nw) = inl ips /\
                         (expected = "" \/ In expected ips)) /\
  (DNSQueryType s = "CNAME" ->
   alive <-> exists cname, outcome (dns_LookupCNAME nw) = inl cname /\
                           (expected = "" \/ cname = expected)) /\
  (DNSQueryType s = "MX" ->
   alive <-> exists hosts, outcome (dns_LookupMX nw) = inl hosts /\
                           (expected = "" \/ In expected hosts)) /\
  (DNSQueryType s = "NS" ->
   alive <-> exists hosts, outcome (dns_LookupNS nw) = inl hosts /\
                           (expected = "" \/ In expected hosts)) /\
  (DNSQueryType s = "TXT" ->
   alive <-> exists texts, outcome (dns_LookupTXT nw) = inl texts /\
                           (expected = "" \/
                            exists t, In t texts /\ Go.Contains t expected = true)).
Proof.
  intros alive expected. subst alive expected.
  unfold performDNSHealthcheck, bind, Now.
  split; [| split; [| split; [| split]]]; intros Hq; rewrite Hq; simpl;
    try (rewrite dns_records_alive;
         try setoid_rewrite found_equal_In;
         try setoid_rewrite found_containing_spec; reflexivity).
  unfold probe_status, alive_since, failed, bind, Now, netDo, elapse, ret.
  simpl. destruct (outcome (dns_LookupCNAME nw)) as [cname | e]; simpl.
  - destruct (String.eqb_spec (DNSExpectedResult s) "") as [He | He]; simpl.
    + split; [intros _; exists cname; auto | reflexivity].
    + destruct (String.eqb_spec cname (DNSExpectedResult s)) as [Hc | Hc];
        simpl.
      * split; [intros _; exists cname; auto | reflexivity].
      * split; [discriminate |].
        intros (c & Hr & [H | H]); [contradiction |].
        injection Hr as <-. congruence.
  - split; [discriminate | intros (c & Hr & _); discriminate].
Qed.

(** C7 at the failing inputs. For the query types AAAA and SOA the probe
    looks nothing up and answers [Dead], "unsupported DNS query type",
    whatever the resolver would have said. *)
Theorem performDNSHealthcheck_AAAA_SOA (nw : Network)
    (result : HealthcheckResult) (w : World) :
  performDNSHealthcheck nw dns_aaaa result w =
    (result, (StatusDead, Some "unsupported DNS query type: AAAA"), w) /\
  performDNSHealthcheck nw dns_soa result w =
    (result, (StatusDead, Some "unsupported DNS query type: SOA"), w).
Proof. split; reflexivity. Qed.

(** ** Invalid configuration *)





(** ** Probe runner: publishing and persistence *)

Lemma performHealthcheck_probed (env : Dispatch) (s : Service) (w : World) :
  performHealthcheck env s w =
  recordHealthcheck env s (fst (probed env s w)) (snd (probed env s w)).
Proof.
  unfold performHealthcheck, probed, bind.
  destruct (beginHealthcheck (db_checking env) s w) as [result w1].
  destruct (dispatchProbe (network env) s result w1) as [p w2]. reflexivity.
Qed.

(** What [updateServiceStatus] does to the queue and the log. *)
Lemma updateServiceStatus_queue (db : Reply unit) (id : Z)
    (st : ServiceStatus) (w : World) :
  let w' := snd (updateServiceStatus db id st w) in
  clients w' = clients w /\
  match outcome db with
  | inr e =>
      broadcast w' = broadcast w /\
      logs w' = logs w ++ ["Error updating service status: " +:+ e]
  | inl _ =>
      if (length (broadcast w) <? broadcast_cap)%nat
      then broadcast w' =
             broadcast w ++ [{| su_ServiceID := id; su_Status := st;
                                su_Timestamp := clock w + took db |}] /\
           logs w' = logs w
      else broadcast w' = broadcast w /\
           logs w' = logs w ++ ["Broadcast channel full, dropping update"]
  end.
Proof.
  unfold updateServiceStatus, UpdateServiceStatus, chan_send, bind, elapse,
    Now, logPrintf, ret.
  destruct (outcome db) as [u | e]; simpl.
  - destruct (length (broadcast w) <? broadcast_cap)%nat; simpl; auto.
  - auto.
Qed.

(** Saving the result changes neither the queue nor the subscribers,
    and a failure to save is logged. *)
Lemma CreateHealthcheckResult_queue (db : Reply unit)
    (result : HealthcheckResult) (w : World) :
  let r := CreateHealthcheckResult db result w in
  broadcast (snd r) = broadcast w /\ logs (snd r) = logs w /\
  fst r = err_of db.
Proof.
  unfold CreateHealthcheckResult, err_of, bind, elapse, ret.
  destruct (outcome db); simpl; auto.
Qed.

(** C1, as the code has it. The terminal status update is put on the
    hub's queue (when the queue has room) whenever the write of the
    latest status succeeds, also when saving the result failed, which is
    logged; when the write of the latest status fails, that is logged
    and nothing is published. *)
Theorem terminal_update_follows_status_write (env : Dispatch) (s : Service)
    (w : World) :
  let p := probed env s w in
  let w' := snd (performHealthcheck env s w) in
  (err_of (db_final env) = None ->
   (length (broadcast (snd p)) < broadcast_cap)%nat ->
   exists t, broadcast w' =
             broadcast (snd p) ++
               [{| su_ServiceID := ID s; su_Status := probe_status p;
                   su_Timestamp := t |}]) /\
  (forall e, err_of (db_insert env) = Some e ->
             In ("Error saving healthcheck result: " +:+ e) (logs w')) /\
  (forall e, err_of (db_final env) = Some e ->
             broadcast w' = broadcast (snd p) /\
             In ("Error updating service status: " +:+ e) (logs w')).
Proof.
  intros p w'. subst w'. rewrite performHealthcheck_probed. fold p.
  destruct p as [[result [st err]] w2]. unfold probe_status. simpl.
  set (result' := match err with
                  | Some e => set_Error e (set_Status st result)
                  | None => set_Status st result
                  end).
  unfold bind.
  pose proof (CreateHealthcheckResult_queue (db_insert env) result' w2) as Hc.
  destruct (CreateHealthcheckResult (db_insert env) result' w2) as [saved w3].
  simpl in Hc. destruct Hc as (Hq3 & Hl3 & Hsaved).
  assert (Hlog : exists w4,
             (match saved with
              | Some e => logPrintf ("Error saving healthcheck result: " +:+ e)
              | None => ret tt
              end) w3 = (tt, w4) /\
             broadcast w4 = broadcast w2 /\
             (forall e, saved = Some e ->
                In ("Error saving healthcheck result: " +:+ e) (logs w4))).
  { destruct saved as [e |]; eexists; (split; [reflexivity |]); simpl;
      (split; [exact Hq3 |]); intros e' He'; [| discriminate].
    injection He' as <-. apply in_or_app. right. simpl. auto. }
  destruct Hlog as (w4 & -> & Hq4 & Hl4).
  pose proof (updateServiceStatus_queue (db_final env) (ID s) st w4) as Hu.
  simpl in Hu. destruct Hu as (_ & Hu).
  rewrite Hq4 in Hu. split; [| split].
  - intros Hok Hroom. unfold err_of in Hok.
    destruct (outcome (db_final env)); [| discriminate].
    apply Nat.ltb_lt in Hroom. rewrite Hroom in Hu. destruct Hu as (-> & _).
    eexists. reflexivity.
  - intros e He. rewrite <- Hsaved in He. specialize (Hl4 e He).
    destruct (outcome (db_final env)).
    + destruct (length (broadcast w2) <? broadcast_cap)%nat;
        destruct Hu as (_ & ->); [| apply in_or_app; left]; exact Hl4.
    + destruct Hu as (_ & ->). apply in_or_app. left. exact Hl4.
  - intros e He. unfold err_of in He.
    destruct (outcome (db_final env)); [discriminate |].
    injection He as <-. destruct Hu as (-> & ->). split; [reflexivity |].
    apply in_or_app. right. simpl. auto.
Qed.

Example terminal_update_follows_status_write_witness :
  err_of (db_final dispatch_insert_fails) = None /\
  err_of (db_insert dispatch_insert_fails) = Some "pq: connection reset" /\
  exists t,
    broadcast (snd (performHealthcheck dispatch_insert_fails http_plain
                      (world_at 0 [http_plain]))) =
    [{| su_ServiceID := 1; su_Status := StatusChecking;
        su_Timestamp := 7 * time.Millisecond |};
     {| su_ServiceID := 1; su_Status := StatusAlive; su_Timestamp := t |}].
Proof.
  split; [reflexivity |]. split; [reflexivity |].
  exact (proj1 (terminal_update_follows_status_write dispatch_insert_fails
                  http_plain (world_at 0 [http_plain]))
           eq_refl ltac:(vm_compute; lia)).
Defined.

(** C1 as stated fails: the probe found the service alive, the write of
    the latest status failed, and the queue holds the [Checking] update
    only. *)
Lemma status_write_failure_suppresses_publish :
  probe_status (probed dispatch_status_write_fails http_plain
                  (world_at 0 [http_plain])) = StatusAlive /\
  err_of (db_final dispatch_status_write_fails) = Some "pq: connection reset" /\
  broadcast (snd (performHealthcheck dispatch_status_write_fails http_plain
                    (world_at 0 [http_plain]))) =
    [{| su_ServiceID := 1; su_Status := StatusChecking;
        su_Timestamp := 7 * time.Millisecond |}].
Proof. repeat split. Qed.

(** X28. A probe that returns without an error has written its own
    elapsed time, from its start to its return, into the result as the
    latency in milliseconds. *)
Lemma successful_probe_latency (env : Dispatch) (s : Service) (w : World) :
  let began := snd (beginHealthcheck (db_checking env) s w) in
  let p := probed env s w in
  probe_error p = None ->
  ResponseTime (probe_result p) =
    time.Milliseconds (time.Since (clock (snd p)) (clock began)).
Proof.
  intros began p. subst began p. unfold probed, bind.
  destruct (beginHealthcheck (db_checking env) s w) as [result w1]. simpl.
  unfold dispatchProbe, performHTTPHealthcheck, performTCPHealthcheck,
    performUDPHealthcheck, performICMPHealthcheck, performDNSHealthcheck,
    performClientHealthcheck, dns_records, closing, alive_since, failed,
    probe_error, probe_result, bind, Now, netDo, elapse, ret.
  repeat (simpl;
          match goal with
          | |- context [String.eqb ?a ?b] => destruct (String.eqb a b)
          | |- context [Go.Contains ?a ?b] => destruct (Go.Contains a b)
          | |- context [found_equal ?a ?l] => destruct (found_equal a l)
          | |- context [found_containing ?a ?l] => destruct (found_containing a l)
          | |- context [match outcome ?x with _ => _ end] => destruct (outcome x)
          | |- context [match http_NewRequest ?x with _ => _ end] =>
              destruct (http_NewRequest x)
          | |- context [match conn_SetReadDeadline ?x with _ => _ end] =>
              destruct (conn_SetReadDeadline x)
          | |- context [match cmd_err ?x with _ => _ end] => destruct (cmd_err x)
          | |- context [match client_outcome ?x with _ => _ end] =>
              destruct (client_outcome x)
          end);
    simpl; intros H; try discriminate H; reflexivity.
Qed.

(** C5 at the failing input. The connection is refused two seconds
    after the probe began; the row saved has the 7 ms that the
    [Checking] update took as its response time. *)
Theorem failed_probe_keeps_initial_latency :
  let env := dispatch_on network_refused in
  let w := world_at 0 [http_plain] in
  let began := snd (beginHealthcheck (db_checking env) http_plain w) in
  let returned := snd (probed env http_plain w) in
  probe_status (probed env http_plain w) = StatusDead /\
  clock returned - clock began = 2000 * time.Millisecond /\
  healthcheck_results (snd (performHealthcheck env http_plain w)) =
    [{| service_id := 1; status := "dead"; status_code := 0;
        response_time := 7; error := "connection refused";
        checked_at := 2008 * time.Millisecond |}].
Proof. repeat split. Qed.

(** ** Broadcast hub *)

Lemma broadcastTo_clients (write : Conn -> StatusUpdate -> option string)
    (u : StatusUpdate) (x : Conn) (w : World) :
  clients (snd (broadcastTo write u x w)) =
    match write x u with
    | Some _ => clients w ∖ {[x]}
    | None => clients w
    end /\
  broadcast (snd (broadcastTo write u x w)) = broadcast w.
Proof.
  unfold broadcastTo, bind, logPrintf, ret.
  destruct (write x u); simpl; auto.
Qed.

(** After the loop over [l] exactly the clients of [l] whose write
    failed are gone. *)
Lemma forEach_broadcastTo (write : Conn -> StatusUpdate -> option string)
    (u : StatusUpdate) (l : list Conn) :
  forall (w : World) (c : Conn),
    c ∈ clients (snd (forEach (broadcastTo write u) l w)) <->
    c ∈ clients w /\ ~ (c ∈ l /\ write c u <> None).
Proof.
  induction l as [| x l IH]; intros w c; simpl.
  - unfold ret. simpl. split; [intros H; split; [exact H |] | tauto].
    intros [Hc _]. by apply not_elem_of_nil in Hc.
  - unfold bind.
    pose proof (broadcastTo_clients write u x w) as [Hx _].
    destruct (broadcastTo write u x w) as [[] w1]. simpl in Hx.
    rewrite IH, Hx. rewrite elem_of_cons.
    destruct (write x u) as [e |] eqn:Hw.
    + rewrite elem_of_difference, elem_of_singleton. split.
      * intros [[Hc Hne] Hl]. split; [exact Hc |].
        intros [[-> | Hin] Hf]; [congruence | tauto].
      * intros [Hc Hl]. split; [split; [exact Hc |] |].
        -- intros ->. apply Hl. split; [by left | congruence].
        -- intros [Hin Hf]. apply Hl. split; [by right | exact Hf].
    + split.
      * intros [Hc Hl]. split; [exact Hc |].
        intros [[-> | Hin] Hf]; [congruence | tauto].
      * intros [Hc Hl]. split; [exact Hc |].
        intros [Hin Hf]. apply Hl. split; [by right | exact Hf].
Qed.

Lemma forEach_broadcastTo_queue (write : Conn -> StatusUpdate -> option string)
    (u : StatusUpdate) (l : list Conn) :
  forall w : World,
    broadcast (snd (forEach (broadcastTo write u) l w)) = broadcast w.
Proof.
  induction l as [| x l IH]; intros w; simpl; [reflexivity |].
  unfold bind.
  pose proof (broadcastTo_clients write u x w) as [_ Hq].
  destruct (broadcastTo write u x w) as [[] w1]. simpl in Hq.
  rewrite IH. exact Hq.
Qed.

(** C9. Publishing a status update never waits: with the hub's queue
    full the update is dropped and only a log line is written, and with
    room it is appended. Publishing leaves the set of subscribers as it
    is, full queue or not; a subscriber leaves the set in the hub's
    broadcast round exactly when the write to it fails. *)
Theorem publish_drops_when_full_and_evicts_on_write_error :
  (forall (db : Reply unit) (id : Z) (st : ServiceStatus) (w : World),
     let w' := snd (updateServiceStatus db id st w) in
     clients w' = clients w /\
     (err_of db = None -> chan_send
                            {| su_ServiceID := id; su_Status := st;
                               su_Timestamp := clock w + took db |}
                            (broadcast w) = None ->
      broadcast w' = broadcast w /\
      logs w' = logs w ++ ["Broadcast channel full, dropping update"]) /\
     (forall q, err_of db = None ->
                chan_send
                  {| su_ServiceID := id; su_Status := st;
                     su_Timestamp := clock w + took db |}
                  (broadcast w) = Some q ->
                broadcast w' = q /\ logs w' = logs w)) /\
  (forall (write : Conn -> StatusUpdate -> option string) (w w' : World)
          (update : StatusUpdate) (rest : list StatusUpdate),
     broadcast w = update :: rest ->
     broadcastHandler write w = Some w' ->
     broadcast w' = rest /\
     forall c, c ∈ clients w ->
               (c ∉ clients w' <-> exists e, write c update = Some e)).
Proof.
  split.
  - intros db id st w w'.
    pose proof (updateServiceStatus_queue db id st w) as [Hc Hq].
    fold w' in Hc, Hq. split; [exact Hc |].
    unfold err_of, chan_send. split.
    + intros Hok Hfull. destruct (outcome db); [| discriminate].
      destruct (length (broadcast w) <? broadcast_cap)%nat;
        [discriminate | exact Hq].
    + intros q Hok Hroom. destruct (outcome db); [| discriminate].
      destruct (length (broadcast w) <? broadcast_cap)%nat;
        [| discriminate].
      injection Hroom as <-. exact Hq.
  - intros write w w' update rest Hq Hh.
    unfold broadcastHandler in Hh. rewrite Hq in Hh. injection Hh as <-.
    split.
    + apply forEach_broadcastTo_queue.
    + intros c Hc. rewrite forEach_broadcastTo. simpl.
      rewrite elem_of_elements. split.
      * intros Hn. destruct (write c update) as [e |]; [by exists e |].
        exfalso. apply Hn. split; [exact Hc |]. intros [_ Hf]. by apply Hf.
      * intros [e He] [_ Hn]. apply Hn. split; [exact Hc | congruence].
Qed.

Example publish_drops_when_full_and_evicts_on_write_error_witness :
  (let w' := snd (updateServiceStatus db_now 1 StatusDead hub_full) in
   broadcast w' = broadcast hub_full /\
   logs w' = ["Broadcast channel full, dropping update"] /\
   clients w' = clients hub_full) /\
  (forall w', broadcastHandler write_fails_for_2 hub_full = Some w' ->
              (1 : Conn) ∈ clients w' /\ (2 : Conn) ∉ clients w').
Proof.
  pose proof publish_drops_when_full_and_evicts_on_write_error as [Hpub Hev].
  split.
  - destruct (Hpub db_now 1 StatusDead hub_full) as (Hc & Hfull & _).
    destruct (Hfull eq_refl eq_refl) as [Hq Hl].
    repeat split; assumption.
  - intros w' Hw'.
    destruct (Hev write_fails_for_2 hub_full w' update_alive
                (repeat update_alive 99) eq_refl Hw') as [_ Hc].
    split.
    + destruct (decide ((1 : Conn) ∈ clients w')) as [Hin | Hout];
        [exact Hin |].
      apply (Hc 1) in Hout; [| set_solver].
      destruct Hout as [e He]. discriminate He.
    + apply (Hc 2); [set_solver |]. by exists "write: broken pipe".
Defined.

(** ** Scheduler and probes in flight *)

Lemma in_flight_spawned (id : Z) (l : list Service) :
  length (filter (fun t => ID (task_service t) = id) (map spawn l)) =
  length (filter (fun s => ID s = id) l).
Proof.
  induction l as [| s l IH]; [reflexivity |].
  simpl map. rewrite !filter_cons. simpl.
  destruct (decide (ID s = id)); simpl; by rewrite IH.
Qed.

(** C4, as the code has it. There is no per-service guard. A tick starts
    a probe for every service of the table for which [shouldCheck]
    holds, whether or not probes of that service are in flight: the
    number in flight grows by the number of due rows with that id. *)
Theorem tick_dispatches_every_due_service (db : Reply unit) (sys : System)
    (id : Z) :
  err_of db = None ->
  in_flight id (after_tick db sys) =
  Nat.add (in_flight id sys)
    (length (filter (fun s => ID s = id /\
                             shouldCheck (clock (world sys) + took db) s = true)
               (services (world sys)))).
Proof.
  intros Hok. unfold err_of in Hok.
  unfold in_flight, after_tick, scheduleTick, GetAllServices, bind, elapse,
    Now, ret.
  destruct (outcome db) as [u | e]; [| discriminate]. simpl.
  rewrite filter_app, length_app, in_flight_spawned, list_filter_filter.
  reflexivity.
Qed.

Example tick_dispatches_every_due_service_witness :
  err_of db_now = None /\
  in_flight 1 first_probe_running = 1%nat /\
  in_flight 1 (after_tick db_now first_probe_running) = 2%nat.
Proof.
  split; [reflexivity |]. split; [reflexivity |].
  rewrite (tick_dispatches_every_due_service db_now first_probe_running 1
             eq_refl).
  reflexivity.
Defined.

(** C4 as stated fails: ten seconds after the start two probes of the
    same service are in flight, both past their [Checking] update. *)
Lemma probes_of_one_service_overlap :
  reachable engine_start second_probe_running /\
  in_flight 1 second_probe_running = 2%nat /\
  Forall (fun t => task_phase t <> Dispatched) (tasks second_probe_running) /\
  ~ at_most_one_in_flight engine_start.
Proof.
  assert (Hreach : reachable engine_start second_probe_running).
  { unfold second_probe_running, first_probe_running.
    eapply reach_step.
    2:{ apply step_begin; [vm_compute; discriminate | reflexivity]. }
    eapply reach_step.
    2:{ apply step_tick; vm_compute; discriminate. }
    eapply reach_step.
    2:{ apply step_wait. vm_compute; discriminate. }
    eapply reach_step.
    2:{ apply (step_begin _ db_now [] [] slow_service);
          [vm_compute; discriminate | reflexivity]. }
    eapply reach_step.
    2:{ apply step_tick; vm_compute; discriminate. }
    eapply reach_step.
    2:{ apply step_wait. vm_compute; discriminate. }
    apply reach_init. }
  split; [exact Hreach |]. split; [reflexivity |]. split.
  { repeat constructor; discriminate. }
  intros Hone. specialize (Hone second_probe_running 1 Hreach).
  vm_compute in Hone. lia.
Qed.

(** * Further properties of the engine *)

(** Case analysis along the branches of the probes. *)
Ltac probe_branch :=
  match goal with
  | |- context [String.eqb ?a ?b] => destruct (String.eqb a b)
  | |- context [Go.Contains ?a ?b] => destruct (Go.Contains a b)
  | |- context [found_equal ?a ?l] => destruct (found_equal a l)
  | |- context [found_containing ?a ?l] => destruct (found_containing a l)
  | |- context [match outcome ?x with _ => _ end] => destruct (outcome x)
  | |- context [match http_NewRequest ?x with _ => _ end] =>
      destruct (http_NewRequest x)
  | |- context [match conn_SetReadDeadline ?x with _ => _ end] =>
      destruct (conn_SetReadDeadline x)
  | |- context [match cmd_err ?x with _ => _ end] => destruct (cmd_err x)
  | |- context [match client_outcome ?x with _ => _ end] =>
      destruct (client_outcome x)
  | |- context [if ?b then StatusDegraded else StatusDead] => destruct b
  end.

Ltac unfold_probes :=
  unfold dispatchProbe, performHTTPHealthcheck, performTCPHealthcheck,
    performUDPHealthcheck, performICMPHealthcheck, performDNSHealthcheck,
    performClientHealthcheck, dns_records, closing, alive_since, failed,
    probe_status, probe_error, probe_result, bind, Now, netDo, elapse, ret.

(** ** The probes and the shared state *)

Lemma dispatchProbe_frame (nw : Network) (s : Service)
    (result : HealthcheckResult) (w : World) :
  let w' := snd (dispatchProbe nw s result w) in
  services w' = services w /\
  healthcheck_results w' = healthcheck_results w /\
  broadcast w' = broadcast w /\
  clients w' = clients w /\
  logs w' = logs w.
Proof.
  unfold_probes. repeat (simpl; probe_branch); simpl; repeat split.
Qed.

(** X1. A probe, whatever the method and whatever the network answers,
    leaves the tables, the hub's queue, the subscribers and the log as
    they are; it only adds to the record of network operations. *)
Theorem probes_touch_only_clock_and_network (nw : Network) (s : Service)
    (result : HealthcheckResult) (w : World) :
  let w' := snd (dispatchProbe nw s result w) in
  services w' = services w /\
  healthcheck_results w' = healthcheck_results w /\
  broadcast w' = broadcast w /\
  clients w' = clients w /\
  logs w' = logs w /\
  exists events, net w' = net w ++ events.
Proof.
  unfold_probes.
  repeat (simpl; probe_branch); simpl;
    repeat split;
    first [ exists []; rewrite app_nil_r; reflexivity
          | eexists; rewrite <- ?app_assoc; reflexivity ].
Qed.

Lemma determineStatus_verdict (c : Z) (s : Service) :
  In (determineStatus c s) verdicts.
Proof.
  unfold determineStatus, verdicts.
  repeat match goal with
         | |- context [if ?b then _ else _] => destruct b
         | |- context [match ?x with _ => _ end] => destruct x
         end; simpl; auto.
Qed.

Lemma dispatchProbe_verdict (nw : Network) (s : Service)
    (result : HealthcheckResult) (w : World) :
  In (probe_status (dispatchProbe nw s result w)) verdicts.
Proof.
  unfold_probes.
  repeat (simpl; probe_branch); simpl;
    first [ apply determineStatus_verdict | unfold verdicts; simpl; tauto ].
Qed.

(** X2. Every probe answers [Alive], [Dead] or [Degraded]. An error
    never comes with [Alive], and for every method but HTTP and HTTPS
    [Alive] comes without an error. *)
Theorem probe_verdict_and_error (nw : Network) (s : Service)
    (result : HealthcheckResult) (w : World) :
  let r := dispatchProbe nw s result w in
  In (probe_status r) verdicts /\
  (probe_error r <> None -> probe_status r <> StatusAlive) /\
  (HealthcheckMethod s <> "HTTP" -> HealthcheckMethod s <> "HTTPS" ->
   (probe_status r = StatusAlive <-> probe_error r = None)).
Proof.
  intros r. subst r. split; [apply dispatchProbe_verdict |]. split.
  - unfold_probes.
    repeat (simpl; probe_branch); simpl; intros H; try discriminate;
      exfalso; apply H; reflexivity.
  - intros H1 H2. unfold dispatchProbe.
    rewrite (string_eqb_false _ _ H1), (string_eqb_false _ _ H2). simpl.
    unfold_probes.
    repeat (simpl; probe_branch); simpl; split; intros H;
      try reflexivity; try discriminate.
Qed.

Example probe_verdict_and_error_witness :
  HealthcheckMethod icmp_fifty <> "HTTP" /\
  HealthcheckMethod icmp_fifty <> "HTTPS" /\
  probe_error (dispatchProbe network_up icmp_fifty blank_result
                 (world_at 0 [])) = None.
Proof.
  assert (H1 : HealthcheckMethod icmp_fifty <> "HTTP") by discriminate.
  assert (H2 : HealthcheckMethod icmp_fifty <> "HTTPS") by discriminate.
  split; [exact H1 |]. split; [exact H2 |].
  apply (proj2 (proj2 (probe_verdict_and_error network_up icmp_fifty
                         blank_result (world_at 0 []))) H1 H2).
  reflexivity.
Defined.

(** ** The probe runner, step by step *)

Lemma updateServiceStatus_state (db : Reply unit) (id : Z)
    (st : ServiceStatus) (w : World) :
  let w' := snd (updateServiceStatus db id st w) in
  clock w' = clock w + took db /\
  healthcheck_results w' = healthcheck_results w /\
  net w' = net w /\
  services w' = match outcome db with
                | inl _ => written id st (clock w + took db) (services w)
                | inr _ => services w
                end.
Proof.
  unfold updateServiceStatus, UpdateServiceStatus, chan_send, bind, elapse,
    Now, logPrintf, ret, written.
  destruct (outcome db) as [u | e]; simpl.
  - destruct (length (broadcast w) <? broadcast_cap)%nat; simpl; auto.
  - auto.
Qed.

Lemma beginHealthcheck_run (db : Reply unit) (s : Service) (w : World) :
  beginHealthcheck db s w =
  ({| ServiceID := ID s; Status := None; StatusCode := 0;
      ResponseTime :=
        time.Milliseconds
          (time.Since (clock (snd (updateServiceStatus db (ID s) StatusChecking w)))
             (clock w));
      Error := "";
      CheckedAt := clock (snd (updateServiceStatus db (ID s) StatusChecking w)) |},
   snd (updateServiceStatus db (ID s) StatusChecking w)).
Proof.
  unfold beginHealthcheck, bind, Now, ret.
  destruct (updateServiceStatus db (ID s) StatusChecking w) as [[] w1].
  reflexivity.
Qed.

Lemma recordHealthcheck_run (env : Dispatch) (s : Service)
    (result : HealthcheckResult) (st : ServiceStatus) (err : option string)
    (w2 : World) :
  exists w3,
    snd (recordHealthcheck env s (result, (st, err)) w2) =
      snd (updateServiceStatus (db_final env) (ID s) st w3) /\
    clock w3 = clock w2 + took (db_insert env) /\
    services w3 = services w2 /\ broadcast w3 = broadcast w2 /\
    clients w3 = clients w2 /\ net w3 = net w2 /\
    healthcheck_results w3 =
      healthcheck_results w2 ++
        match outcome (db_insert env) with
        | inl _ => [row_of result st err (clock w2 + took (db_insert env))]
        | inr _ => []
        end /\
    logs w3 =
      logs w2 ++
        match outcome (db_insert env) with
        | inl _ => []
        | inr e => ["Error saving healthcheck result: " +:+ e]
        end.
Proof.
  unfold recordHealthcheck, CreateHealthcheckResult, bind, elapse, logPrintf,
    ret, row_of.
  destruct (outcome (db_insert env)) as [u | e]; simpl;
    eexists; (split; [reflexivity |]); simpl;
    rewrite ?app_nil_r; destruct err; repeat split.
Qed.

Lemma probed_run (env : Dispatch) (s : Service) (w : World) :
  probed env s w =
  dispatchProbe (network env) s (fst (beginHealthcheck (db_checking env) s w))
    (snd (updateServiceStatus (db_checking env) (ID s) StatusChecking w)).
Proof.
  unfold probed, bind. rewrite beginHealthcheck_run. reflexivity.
Qed.

Lemma dispatchProbe_clock (nw : Network) (s : Service)
    (result : HealthcheckResult) (w : World) :
  patient_network nw ->
  clock w <= clock (snd (dispatchProbe nw s result w)).
Proof.
  intros (H1 & H2 & H3 & H4 & H5 & H6 & H7 & H8 & H9 & H10 & H11).
  unfold_probes. repeat (simpl; probe_branch); simpl; lia.
Qed.

Lemma Milliseconds_Since_nonneg (t0 t1 : Z) :
  t0 <= t1 -> 0 <= time.Milliseconds (time.Since t1 t0).
Proof.
  intros H. unfold time.Milliseconds, time.Since, time.Sub, time.Millisecond,
    Go.int64_min, Go.int64_max.
  apply Z.quot_pos; lia.
Qed.

Lemma dispatchProbe_latency_nonneg (nw : Network) (s : Service)
    (result : HealthcheckResult) (w : World) :
  patient_network nw ->
  0 <= ResponseTime result ->
  0 <= ResponseTime (probe_result (dispatchProbe nw s result w)).
Proof.
  intros (H1 & H2 & H3 & H4 & H5 & H6 & H7 & H8 & H9 & H10 & H11) Hr.
  unfold_probes.
  repeat (simpl; probe_branch); simpl;
    first [ exact Hr | apply Milliseconds_Since_nonneg; lia ].
Qed.

(** What a run of [performHealthcheck] leaves behind, in terms of the
    state [w2] in which the probe returned. *)
Lemma performHealthcheck_run (env : Dispatch) (s : Service) (w : World) :
  let p := probed env s w in
  let w2 := snd p in
  exists w3,
    snd (performHealthcheck env s w) =
      snd (updateServiceStatus (db_final env) (ID s) (probe_status p) w3) /\
    clock w3 = clock w2 + took (db_insert env) /\
    services w3 = services w2 /\ broadcast w3 = broadcast w2 /\
    clients w3 = clients w2 /\ net w3 = net w2 /\
    healthcheck_results w3 =
      healthcheck_results w2 ++
        match outcome (db_insert env) with
        | inl _ => [row_of (probe_result p) (probe_status p) (probe_error p)
                      (clock w2 + took (db_insert env))]
        | inr _ => []
        end /\
    logs w3 =
      logs w2 ++
        match outcome (db_insert env) with
        | inl _ => []
        | inr e => ["Error saving healthcheck result: " +:+ e]
        end.
Proof.
  intros p w2. subst w2. rewrite performHealthcheck_probed. fold p.
  destruct p as [[result [st err]] w2]. apply recordHealthcheck_run.
Qed.

Lemma dispatchProbe_result_fields (nw : Network) (s : Service)
    (result : HealthcheckResult) (w : World) :
  let r := dispatchProbe nw s result w in
  ServiceID (probe_result r) = ServiceID result /\
  (probe_error r = None -> Error (probe_result r) = Error result).
Proof.
  unfold_probes.
  repeat (simpl; probe_branch); simpl; split; try reflexivity;
    intros H; try reflexivity; discriminate H.
Qed.

Lemma written_written (id : Z) (st st' : ServiceStatus) (t t' : time.Time)
    (table : list Service) :
  written id st t (written id st' t' table) = written id st t table.
Proof.
  unfold written. rewrite map_map. apply map_ext. intros r.
  destruct (ID r =? id) eqn:Hr; simpl; rewrite Hr; reflexivity.
Qed.

(** ** What one run of the probe runner leaves behind *)

(** X3. When both status writes succeed and the hub's queue has room
    for two updates, a run puts exactly two updates on the queue, in
    this order: [Checking], stamped when the first write returned, and
    the probe's verdict, stamped when the run ended. If no call takes
    negative time the first stamp is not later than the second. *)
Theorem checking_precedes_terminal (env : Dispatch) (s : Service) (w : World) :
  let p := probed env s w in
  let w' := snd (performHealthcheck env s w) in
  err_of (db_checking env) = None -> err_of (db_final env) = None ->
  (length (broadcast w) + 2 <= broadcast_cap)%nat ->
  broadcast w' =
    broadcast w ++
      [update_of (ID s) StatusChecking (clock w + took (db_checking env));
       update_of (ID s) (probe_status p) (clock w')] /\
  (patient env -> clock w + took (db_checking env) <= clock w').
Proof.
  intros p w' Hc Hf Hroom. subst w'.
  destruct (performHealthcheck_run env s w)
    as (w3 & -> & Hclock & _ & Hq3 & _ & _ & _ & _).
  fold p in Hclock, Hq3 |- *.
  pose proof (updateServiceStatus_queue (db_final env) (ID s) (probe_status p) w3)
    as [_ Hfin].
  pose proof (updateServiceStatus_state (db_final env) (ID s) (probe_status p) w3)
    as (Hclock' & _).
  pose proof (updateServiceStatus_queue (db_checking env) (ID s) StatusChecking w)
    as [_ Hchk].
  pose proof (updateServiceStatus_state (db_checking env) (ID s) StatusChecking w)
    as (Hclock1 & _).
  assert (Hp : snd p = snd (dispatchProbe (network env) s
                              (fst (beginHealthcheck (db_checking env) s w))
                              (snd (updateServiceStatus (db_checking env) (ID s)
                                      StatusChecking w))))
    by (unfold p; rewrite probed_run; reflexivity).
  pose proof (dispatchProbe_frame (network env) s
                (fst (beginHealthcheck (db_checking env) s w))
                (snd (updateServiceStatus (db_checking env) (ID s)
                        StatusChecking w))) as (_ & _ & Hq2 & _).
  simpl in Hfin, Hchk, Hclock', Hclock1, Hq2. rewrite <- Hp in Hq2.
  unfold err_of in Hc, Hf.
  destruct (outcome (db_checking env)); [| discriminate].
  destruct (outcome (db_final env)); [| discriminate].
  assert (Hr1 : (length (broadcast w) <? broadcast_cap)%nat = true)
    by (apply Nat.ltb_lt; lia).
  rewrite Hr1 in Hchk. destruct Hchk as [Hq1 _].
  assert (Hr3 : (length (broadcast w3) <? broadcast_cap)%nat = true).
  { apply Nat.ltb_lt. rewrite Hq3, Hq2, Hq1, length_app. simpl. lia. }
  rewrite Hr3 in Hfin. destruct Hfin as [Hq' _]. split.
  - rewrite Hq', Hclock', Hq3, Hq2, Hq1, <- app_assoc. reflexivity.
  - intros (_ & Hnw & Hi & Hfi).
    pose proof (dispatchProbe_clock (network env) s
                  (fst (beginHealthcheck (db_checking env) s w))
                  (snd (updateServiceStatus (db_checking env) (ID s)
                          StatusChecking w)) Hnw) as Hmono.
    rewrite <- Hp in Hmono. lia.
Qed.

Example checking_precedes_terminal_witness :
  broadcast (snd (performHealthcheck (dispatch_on network_up) http_plain
                    (world_at 0 [http_plain]))) =
    [update_of 1 StatusChecking (7 * time.Millisecond);
     update_of 1 StatusAlive (59 * time.Millisecond)].
Proof.
  exact (proj1 (checking_precedes_terminal (dispatch_on network_up) http_plain
                  (world_at 0 [http_plain]) eq_refl eq_refl
                  ltac:(vm_compute; lia))).
Defined.

(** The state in which the probe of a run returns differs from the
    state after the [Checking] update in the clock and the network
    record only. *)
Lemma probed_frame (env : Dispatch) (s : Service) (w : World) :
  let w1 := snd (updateServiceStatus (db_checking env) (ID s) StatusChecking w) in
  let p := probed env s w in
  services (snd p) = services w1 /\
  healthcheck_results (snd p) = healthcheck_results w1 /\
  broadcast (snd p) = broadcast w1 /\
  clients (snd p) = clients w1 /\
  logs (snd p) = logs w1 /\
  ServiceID (probe_result p) = ID s /\
  (probe_error p = None -> Error (probe_result p) = "") /\
  In (probe_status p) verdicts /\
  (patient_network (network env) -> 0 <= took (db_checking env) ->
   clock w1 <= clock (snd p) /\ 0 <= ResponseTime (probe_result p)).
Proof.
  intros w1 p. subst p. rewrite probed_run. fold w1.
  rewrite beginHealthcheck_run. fold w1. simpl fst.
  match goal with
  | |- context [dispatchProbe ?nw s ?r w1] => set (result := r)
  end.
  pose proof (dispatchProbe_frame (network env) s result w1)
    as (H1 & H2 & H3 & H4 & H5).
  pose proof (dispatchProbe_result_fields (network env) s result w1)
    as (H6 & H7).
  simpl in H1, H2, H3, H4, H5, H6, H7.
  repeat split; try assumption.
  - apply dispatchProbe_verdict.
  - apply dispatchProbe_clock; assumption.
  - apply dispatchProbe_latency_nonneg; [assumption |].
    subst result. simpl. apply Milliseconds_Since_nonneg.
    pose proof (updateServiceStatus_state (db_checking env) (ID s)
                  StatusChecking w) as (Hc & _).
    fold w1 in Hc. simpl in Hc. lia.
Qed.

(** X4. A run appends at most one row to [healthcheck_results] and
    changes no earlier row. When the insert fails nothing is appended.
    When it succeeds the row carries the service's id, the probe's
    verdict as "alive", "dead" or "degraded", the probe's error text or
    the empty string, and the probe's status code and latency. *)
Theorem results_are_append_only (env : Dispatch) (s : Service) (w : World) :
  let p := probed env s w in
  let w' := snd (performHealthcheck env s w) in
  (err_of (db_insert env) <> None ->
   healthcheck_results w' = healthcheck_results w) /\
  (err_of (db_insert env) = None ->
   exists row,
     healthcheck_results w' = healthcheck_results w ++ [row] /\
     service_id row = ID s /\
     status row = ServiceStatus_string (probe_status p) /\
     In (status row) ["alive"; "dead"; "degraded"] /\
     error row = default "" (probe_error p) /\
     status_code row = StatusCode (probe_result p) /\
     response_time row = ResponseTime (probe_result p)).
Proof.
  intros p w'. subst p w'.
  destruct (performHealthcheck_run env s w)
    as (w3 & -> & _ & _ & _ & _ & _ & Hrows & _).
  pose proof (updateServiceStatus_state (db_final env) (ID s) (probe_status (probed env s w)) w3)
    as (_ & Hsame & _).
  pose proof (probed_frame env s w) as (_ & Hr2 & _ & _ & _ & Hid & Herr & Hv & _).
  pose proof (updateServiceStatus_state (db_checking env) (ID s)
                StatusChecking w) as (_ & Hr1 & _).
  simpl in Hsame, Hr2, Hr1. rewrite Hsame, Hrows, Hr2, Hr1.
  unfold err_of. destruct (outcome (db_insert env)) as [u | e].
  - split; [intros H; contradiction |]. intros _.
    eexists. split; [reflexivity |]. unfold row_of. simpl.
    repeat split; try assumption.
    + unfold verdicts in Hv. simpl in Hv.
      destruct Hv as [<- | [<- | [<- | []]]]; simpl; tauto.
    + destruct (probe_error (probed env s w)); [reflexivity | by apply Herr].
  - split; [intros _; apply app_nil_r | discriminate].
Qed.

Example results_are_append_only_witness :
  err_of (db_insert (dispatch_on network_up)) = None /\
  healthcheck_results
    (snd (performHealthcheck dispatch_insert_fails http_plain
            (world_at 0 [http_plain]))) = [] /\
  exists row,
    healthcheck_results
      (snd (performHealthcheck (dispatch_on network_up) http_plain
              (world_at 0 [http_plain]))) = [row] /\
    status row = "alive" /\ status_code row = 200 /\ response_time row = 50.
Proof.
  split; [reflexivity |]. split.
  - apply (proj1 (results_are_append_only dispatch_insert_fails http_plain
                    (world_at 0 [http_plain]))).
    discriminate.
  - destruct (proj2 (results_are_append_only (dispatch_on network_up)
                       http_plain (world_at 0 [http_plain])) eq_refl)
      as (row & Hrows & _ & Hst & _ & _ & Hcode & Hlat).
    exists row. repeat split; assumption.
Defined.

(** X5. A run writes the service's rows and no others. When the final
    write succeeds the rows of the service hold the probe's verdict and
    the time the run ended. When it fails after the [Checking] write
    succeeded the rows are left at [Checking]; when both fail the table
    is as it was. *)
Theorem run_writes_latest_status (env : Dispatch) (s : Service) (w : World) :
  let p := probed env s w in
  let w' := snd (performHealthcheck env s w) in
  (err_of (db_final env) = None ->
   services w' = written (ID s) (probe_status p) (clock w') (services w)) /\
  (err_of (db_final env) <> None -> err_of (db_checking env) = None ->
   services w' =
     written (ID s) StatusChecking (clock w + took (db_checking env))
       (services w)) /\
  (err_of (db_final env) <> None -> err_of (db_checking env) <> None ->
   services w' = services w).
Proof.
  intros p w'. subst p w'.
  destruct (performHealthcheck_run env s w)
    as (w3 & -> & _ & Hs3 & _).
  pose proof (updateServiceStatus_state (db_final env) (ID s) (probe_status (probed env s w)) w3)
    as (Hclock & _ & _ & Hfin).
  pose proof (probed_frame env s w) as (Hs2 & _).
  pose proof (updateServiceStatus_state (db_checking env) (ID s)
                StatusChecking w) as (_ & _ & _ & Hchk).
  simpl in Hfin, Hs2, Hchk, Hclock.
  rewrite Hfin, Hclock, Hs3, Hs2, Hchk. unfold err_of.
  destruct (outcome (db_final env)) as [u | e];
    destruct (outcome (db_checking env)) as [u' | e'];
    repeat split; intros; try congruence; try contradiction.
  apply written_written.
Qed.

Example run_writes_latest_status_witness :
  map (fun r => (CurrentStatus r, LastChecked r))
    (services (snd (performHealthcheck dispatch_status_write_fails http_plain
                      (world_at 0 [http_plain])))) =
    [(StatusChecking, Some (7 * time.Millisecond))].
Proof.
  rewrite (proj1 (proj2 (run_writes_latest_status dispatch_status_write_fails
                           http_plain (world_at 0 [http_plain])))
             ltac:(discriminate) eq_refl).
  reflexivity.
Defined.

(** X6. If no call takes negative time, the row a run saves has a
    latency that is not negative and a [checked_at] between the start
    and the end of the run. *)
Theorem saved_row_is_timely (env : Dispatch) (s : Service) (w : World) :
  let w' := snd (performHealthcheck env s w) in
  patient env -> err_of (db_insert env) = None ->
  exists row,
    healthcheck_results w' = healthcheck_results w ++ [row] /\
    0 <= response_time row /\
    clock w <= checked_at row <= clock w'.
Proof.
  intros w' (Hc & Hnw & Hi & Hf) Hok. subst w'.
  destruct (performHealthcheck_run env s w)
    as (w3 & -> & Hclock3 & _ & _ & _ & _ & Hrows & _).
  pose proof (updateServiceStatus_state (db_final env) (ID s)
                (probe_status (probed env s w)) w3) as (Hclock & Hsame & _).
  pose proof (probed_frame env s w)
    as (_ & Hr2 & _ & _ & _ & _ & _ & _ & Hmono).
  destruct (Hmono Hnw Hc) as [Hmono2 Hlat].
  pose proof (updateServiceStatus_state (db_checking env) (ID s)
                StatusChecking w) as (Hclock1 & Hr1 & _).
  simpl in Hclock, Hsame, Hr2, Hclock1, Hr1, Hmono2.
  unfold err_of in Hok.
  destruct (outcome (db_insert env)); [| discriminate].
  eexists. split.
  - rewrite Hsame, Hrows, Hr2, Hr1. reflexivity.
  - unfold row_of. simpl. split; [exact Hlat | lia].
Qed.

Example saved_row_is_timely_witness :
  patient (dispatch_on network_refused) /\
  exists row,
    healthcheck_results
      (snd (performHealthcheck (dispatch_on network_refused) http_plain
              (world_at 0 [http_plain]))) = [row] /\
    0 <= response_time row.
Proof.
  assert (Hp : patient (dispatch_on network_refused)).
  { unfold patient, patient_network. simpl. repeat split; discriminate. }
  split; [exact Hp |].
  destruct (saved_row_is_timely (dispatch_on network_refused) http_plain
              (world_at 0 [http_plain]) Hp eq_refl) as (row & Hrows & Hlat & _).
  exists row. split; assumption.
Defined.

(** ** Writes to the table and the queue *)

Lemma written_absent (id : Z) (st : ServiceStatus) (t : time.Time)
    (table : list Service) :
  (forall r, In r table -> ID r <> id) -> written id st t table = table.
Proof.
  intros Habs. unfold written. rewrite <- (map_id table) at 2.
  apply map_ext_in. intros r Hr.
  destruct (Z.eqb_spec (ID r) id) as [Heq | _]; [| reflexivity].
  exfalso. exact (Habs r Hr Heq).
Qed.



Lemma updateServiceStatus_bound (db : Reply unit) (id : Z)
    (st : ServiceStatus) (w : World) :
  (length (broadcast w) <= broadcast_cap)%nat ->
  (length (broadcast (snd (updateServiceStatus db id st w))) <= broadcast_cap)%nat.
Proof.
  intros Hb.
  pose proof (updateServiceStatus_queue db id st w) as (_ & Hq). simpl in Hq.
  destruct (outcome db).
  - destruct (length (broadcast w) <? broadcast_cap)%nat eqn:Hroom;
      destruct Hq as [-> _]; [| exact Hb].
    apply Nat.ltb_lt in Hroom. rewrite length_app. simpl. lia.
  - destruct Hq as [-> _]. exact Hb.
Qed.

Lemma scheduleTick_frame (db : Reply unit) (w : World) :
  let w' := snd (scheduleTick db w) in
  services w' = services w /\
  healthcheck_results w' = healthcheck_results w /\
  broadcast w' = broadcast w /\
  clients w' = clients w /\
  net w' = net w /\
  clock w' = clock w + took db.
Proof.
  unfold scheduleTick, GetAllServices, bind, elapse, Now, logPrintf, ret.
  destruct (outcome db); simpl; repeat split.
Qed.

Lemma recipe_written (id : Z) (st : ServiceStatus) (t : time.Time)
    (table : list Service) :
  map recipe (written id st t table) = map recipe table.
Proof.
  unfold written. rewrite map_map. apply map_ext. intros r.
  destruct (ID r =? id); reflexivity.
Qed.

Lemma updateServiceStatus_recipe (db : Reply unit) (id : Z)
    (st : ServiceStatus) (w : World) :
  map recipe (services (snd (updateServiceStatus db id st w))) =
  map recipe (services w).
Proof.
  pose proof (updateServiceStatus_state db id st w) as (_ & _ & _ & Hs).
  simpl in Hs. rewrite Hs.
  destruct (outcome db); [apply recipe_written | reflexivity].
Qed.

(** What a step of the engine does to the queue and to the table. *)
Lemma step_queue_and_recipes (a b : System) :
  step a b ->
  ((length (broadcast (world a)) <= broadcast_cap)%nat ->
   (length (broadcast (world b)) <= broadcast_cap)%nat) /\
  map recipe (services (world b)) = map recipe (services (world a)).
Proof.
  intros Hstep. destruct Hstep as [sys d Hd | sys db Hd Ht
    | sys db before after s Hd Htasks | sys env before after s result Htasks];
    simpl.
  - split; [auto | reflexivity].
  - pose proof (scheduleTick_frame db (world sys)) as (Hs & _ & Hq & _).
    simpl in Hs, Hq. rewrite Hs, Hq. split; [auto | reflexivity].
  - rewrite beginHealthcheck_run. simpl. split.
    + apply updateServiceStatus_bound.
    + apply updateServiceStatus_recipe.
  - unfold bind.
    pose proof (dispatchProbe_frame (network env) s result (world sys))
      as (Hs2 & _ & Hq2 & _).
    destruct (dispatchProbe (network env) s result (world sys))
      as [[result' [st err]] w2].
    simpl in Hs2, Hq2.
    destruct (recordHealthcheck_run env s result' st err w2)
      as (w3 & -> & _ & Hs3 & Hq3 & _).
    split.
    + intros Hb. apply updateServiceStatus_bound. rewrite Hq3, Hq2. exact Hb.
    + rewrite updateServiceStatus_recipe, Hs3, Hs2. reflexivity.
Qed.

(** Two ticks, each followed by the start of a probe, lead from the
    start of the engine to [second_probe_running]. *)
Lemma overlap_is_reachable : reachable engine_start second_probe_running.
Proof.
  unfold second_probe_running, first_probe_running.
  eapply reach_step.
  2:{ apply step_begin; [vm_compute; discriminate | reflexivity]. }
  eapply reach_step.
  2:{ apply step_tick; vm_compute; discriminate. }
  eapply reach_step.
  2:{ apply step_wait. vm_compute; discriminate. }
  eapply reach_step.
  2:{ apply (step_begin _ db_now [] [] slow_service);
        [vm_compute; discriminate | reflexivity]. }
  eapply reach_step.
  2:{ apply step_tick; vm_compute; discriminate. }
  eapply reach_step.
  2:{ apply step_wait. vm_compute; discriminate. }
  apply reach_init.
Qed.

(** X8. The hub's queue never holds more than 100 updates: if it does
    not at the start, it does not in any state the engine reaches. *)
Theorem queue_never_exceeds_capacity (init sys : System) :
  (length (broadcast (world init)) <= broadcast_cap)%nat ->
  reachable init sys ->
  (length (broadcast (world sys)) <= broadcast_cap)%nat.
Proof.
  intros Hinit Hreach.
  induction Hreach as [| a b Hreach IH Hstep]; [exact Hinit |].
  apply (proj1 (step_queue_and_recipes a b Hstep)). exact IH.
Qed.

Example queue_never_exceeds_capacity_witness :
  (length (broadcast (world second_probe_running)) <= broadcast_cap)%nat.
Proof.
  apply (queue_never_exceeds_capacity engine_start second_probe_running).
  - vm_compute. lia.
  - exact overlap_is_reachable.
Defined.

(** X9. The engine writes nothing of a service but its current status
    and the time of its last check: in every state it reaches the table
    holds the same services, in the same order, with the same
    configuration as at the start. *)
Theorem engine_keeps_the_configuration (init sys : System) :
  reachable init sys ->
  map recipe (services (world sys)) = map recipe (services (world init)).
Proof.
  intros Hreach.
  induction Hreach as [| a b Hreach IH Hstep]; [reflexivity |].
  rewrite (proj2 (step_queue_and_recipes a b Hstep)). exact IH.
Qed.

Example engine_keeps_the_configuration_witness :
  map recipe (services (world second_probe_running)) = [recipe slow_service].
Proof.
  apply (engine_keeps_the_configuration engine_start second_probe_running).
  exact overlap_is_reachable.
Defined.

(** ** The scheduler's tick *)

Lemma shouldCheck_needs_host_and_url (now : time.Time) (s : Service) :
  shouldCheck now s = true ->
  Host s <> "" /\
  (In (HealthcheckMethod s) url_methods -> HealthcheckURL s <> "").
Proof.
  unfold shouldCheck. rewrite <- requiresURL_iff.
  destruct (String.eqb_spec (Host s) "") as [Hh | Hh]; [discriminate |].
  destruct (requiresURL (HealthcheckMethod s));
    destruct (String.eqb_spec (HealthcheckURL s) "") as [Hu | Hu]; simpl;
    intros H; try discriminate; split; auto; discriminate.
Qed.

(** X10. A tick only reads: it leaves the tables, the queue and the
    subscribers as they are. When the read of the services fails it
    starts no probe and writes one log line. It never starts a probe
    for a service that is not in the table, has an empty host, or has
    an empty path with a method that needs one. *)
Theorem tick_only_reads (db : Reply unit) (w : World) :
  let r := scheduleTick db w in
  services (snd r) = services w /\
  healthcheck_results (snd r) = healthcheck_results w /\
  broadcast (snd r) = broadcast w /\
  clients (snd r) = clients w /\
  (forall e, outcome db = inr e ->
             fst r = [] /\
             logs (snd r) = logs w ++ ["Error getting services: " +:+ e]) /\
  (forall s, In s (fst r) ->
             In s (services w) /\ Host s <> "" /\
             (In (HealthcheckMethod s) url_methods -> HealthcheckURL s <> "")).
Proof.
  intros r. subst r.
  pose proof (scheduleTick_frame db w) as (H1 & H2 & H3 & H4 & _).
  repeat (split; [assumption |]).
  unfold scheduleTick, GetAllServices, bind, elapse, Now, logPrintf, ret.
  destruct (outcome db) as [u | e]; simpl; split.
  - intros e He. discriminate He.
  - intros s Hs. apply list_elem_of_In, list_elem_of_filter in Hs.
    destruct Hs as [Hdue Hin]. split; [by apply list_elem_of_In |].
    exact (shouldCheck_needs_host_and_url _ _ Hdue).
  - intros e' He'. injection He' as <-. split; reflexivity.
  - intros s [].
Qed.

Example tick_only_reads_witness :
  fst (scheduleTick (fails 0 "pq: connection reset")
         (world_at 0 [http_plain])) = [] /\
  logs (snd (scheduleTick (fails 0 "pq: connection reset")
               (world_at 0 [http_plain]))) =
    ["Error getting services: pq: connection reset"].
Proof.
  exact (proj1 (proj2 (proj2 (proj2 (proj2
           (tick_only_reads (fails 0 "pq: connection reset")
              (world_at 0 [http_plain]))))))
           "pq: connection reset" eq_refl).
Defined.

Lemma written_row (id : Z) (st : ServiceStatus) (t : time.Time)
    (table : list Service) (row : Service) :
  In row (written id st t table) -> ID row = id ->
  exists r, In r table /\ ID r = id /\ row = touch st t r.
Proof.
  unfold written. intros Hin Hid. apply in_map_iff in Hin.
  destruct Hin as (r & Hrow & Hr). exists r.
  destruct (Z.eqb_spec (ID r) id) as [Heq | Hne].
  - repeat split; auto.
  - subst row. contradiction.
Qed.

(** X11. Once the [Checking] write of a run has succeeded, no row of
    that service is due again until its polling interval has passed
    since that write; when the write fails the table is as before, so a
    service that was due stays due. *)
Theorem checking_write_holds_back_redispatch (db : Reply unit) (s : Service)
    (w : World) :
  let w1 := snd (beginHealthcheck db s w) in
  (err_of db = None ->
   forall row now,
     In row (services w1) -> ID row = ID s ->
     pg_integer (PollingInterval row) ->
     now - (clock w + took db) < PollingInterval row * time.Second ->
     shouldCheck now row = false) /\
  (err_of db <> None -> services w1 = services w).
Proof.
  intros w1. subst w1. rewrite beginHealthcheck_run. simpl.
  pose proof (updateServiceStatus_state db (ID s) StatusChecking w)
    as (_ & _ & _ & Hs).
  simpl in Hs. rewrite Hs. unfold err_of.
  destruct (outcome db) as [u | e]; split; try congruence.
  intros _ row now Hin Hid Hp Hsoon.
  destruct (written_row _ _ _ _ _ Hin Hid) as (r & _ & _ & ->).
  destruct (shouldCheck now (touch StatusChecking (clock w + took db) r))
    eqn:Hdue; [| reflexivity].
  exfalso. apply shouldCheck_when_fits in Hdue.
  - destruct Hdue as (_ & _ & [Hnone | (last & Hlast & Hle)]).
    + discriminate Hnone.
    + simpl in Hlast. injection Hlast as <-. simpl in Hle, Hsoon. lia.
  - unfold pg_integer in Hp. simpl in Hp |- *. lia.
Qed.

Example checking_write_holds_back_redispatch_witness :
  shouldCheck (4 * time.Second)
    (touch StatusChecking 0 slow_service) = false.
Proof.
  apply (proj1 (checking_write_holds_back_redispatch db_now slow_service
                  (world_at 0 [slow_service])) eq_refl).
  - left. reflexivity.
  - reflexivity.
  - vm_compute. split; [discriminate | reflexivity].
  - vm_compute. reflexivity.
Defined.

(** X12. A service whose polling interval is zero or negative is due at
    every tick that is not earlier than its last check, provided its
    host is set and its path is set where the method needs one. *)
Theorem nonpositive_interval_is_always_due (now last : time.Time)
    (s : Service) :
  Host s <> "" ->
  (In (HealthcheckMethod s) url_methods -> HealthcheckURL s <> "") ->
  pg_integer (PollingInterval s) -> PollingInterval s <= 0 ->
  LastChecked s = Some last -> last <= now ->
  shouldCheck now s = true.
Proof.
  intros Hh Hu Hp Hz Hl Hn. apply shouldCheck_when_fits.
  - unfold pg_integer in Hp. lia.
  - repeat split; auto. right. exists last. split; [exact Hl |].
    unfold time.Second. nia.
Qed.

Example nonpositive_interval_is_always_due_witness :
  shouldCheck time.Second
    (scenario "TCP" "" 0 30 ∅ 3 "A" "" (Some time.Second)) = true.
Proof.
  apply (nonpositive_interval_is_always_due time.Second time.Second).
  - discriminate.
  - simpl. intros H. repeat destruct H as [H | H]; try discriminate H.
    contradiction.
  - vm_compute. split; [discriminate | reflexivity].
  - vm_compute. discriminate.
  - reflexivity.
  - vm_compute. discriminate.
Defined.

(** ** The TCP and UDP probes *)

(** X13. The TCP probe answers [Alive] exactly when the dial succeeds
    and, if there is data to send, the write succeeds and, if a reply
    is expected, a reply is read that contains the expected text.
    Without data to send the expected reply is not looked at: the probe
    only dials and closes. *)
Theorem tcp_probe_alive (nw : Network) (s : Service)
    (result : HealthcheckResult) (w : World) :
  let r := performTCPHealthcheck nw s result w in
  let dial := NetDial "tcp" (address s) (time.seconds (RequestTimeout s)) in
  (probe_status r = StatusAlive <->
   err_of (net_Dial nw) = None /\
   (TCPSendData s = "" \/
    err_of (conn_Write nw) = None /\ reply_matches nw (TCPExpectData s))) /\
  (TCPSendData s = "" ->
   net (snd r) = net w ++ match err_of (net_Dial nw) with
                           | Some _ => [dial]
                           | None => [dial; NetClose]
                           end).
Proof.
  intros r dial. subst r dial.
  unfold performTCPHealthcheck, closing, alive_since, failed, probe_status,
    err_of, reply_matches, bind, Now, netDo, elapse, ret.
  simpl.
  destruct (outcome (net_Dial nw)) as [u | e]; simpl.
  2:{ split; [| reflexivity].
      split; [discriminate | intros [H _]; discriminate H]. }
  destruct (String.eqb_spec (TCPSendData s) "") as [Hs | Hs]; simpl.
  { split; [| intros _; rewrite <- app_assoc; reflexivity].
    split; [auto | reflexivity]. }
  split; [| contradiction].
  destruct (outcome (conn_Write nw)) as [u' | e']; simpl.
  2:{ split; [discriminate |].
      intros [_ [H | [H _]]]; [contradiction | discriminate H]. }
  destruct (String.eqb_spec (TCPExpectData s) "") as [He | He]; simpl.
  { split; [auto | reflexivity]. }
  destruct (outcome (conn_Read nw)) as [response | e'']; simpl.
  2:{ split; [discriminate |].
      intros [_ [H | [_ [H | (resp & H & _)]]]];
        [contradiction | contradiction | discriminate H]. }
  destruct (Go.Contains response (TCPExpectData s)) eqn:Hc; simpl.
  - split; [| reflexivity]. intros _. split; [reflexivity |]. right.
    split; [reflexivity |]. right. exists response. auto.
  - split; [discriminate |].
    intros [_ [H | [_ [H | (resp & H & Hc')]]]];
      [contradiction | contradiction |].
    injection H as <-. congruence.
Qed.

Example tcp_probe_alive_witness :
  TCPSendData slow_service = "" /\
  net (snd (performTCPHealthcheck network_up slow_service blank_result
              (world_at 0 []))) =
    [NetDial "tcp" "h:80" (30 * time.Second); NetClose].
Proof.
  split; [reflexivity |].
  exact (proj2 (tcp_probe_alive network_up slow_service blank_result
                  (world_at 0 [])) eq_refl).
Defined.

(** X14. The UDP probe answers [Alive] exactly when the dial and the
    setting of the read deadline succeed, there is data to send, the
    write succeeds and, if a reply is expected, a reply is read that
    contains the expected text. *)
Theorem udp_probe_alive (nw : Network) (s : Service)
    (result : HealthcheckResult) (w : World) :
  probe_status (performUDPHealthcheck nw s result w) = StatusAlive <->
  err_of (net_Dial nw) = None /\ conn_SetReadDeadline nw = None /\
  UDPSendData s <> "" /\ err_of (conn_Write nw) = None /\
  reply_matches nw (UDPExpectData s).
Proof.
  unfold performUDPHealthcheck, closing, alive_since, failed, probe_status,
    err_of, reply_matches, bind, Now, netDo, elapse, ret.
  simpl.
  destruct (outcome (net_Dial nw)) as [u | e]; simpl.
  2:{ split; [discriminate | intros [H _]; discriminate H]. }
  destruct (conn_SetReadDeadline nw) as [e |]; simpl.
  { split; [discriminate | intros (_ & H & _); discriminate H]. }
  destruct (String.eqb_spec (UDPSendData s) "") as [Hs | Hs]; simpl.
  { split; [discriminate | intros (_ & _ & H & _); contradiction]. }
  destruct (outcome (conn_Write nw)) as [u' | e']; simpl.
  2:{ split; [discriminate | intros (_ & _ & _ & H & _); discriminate H]. }
  destruct (String.eqb_spec (UDPExpectData s) "") as [He | He]; simpl.
  { split; [auto 6 | reflexivity]. }
  destruct (outcome (conn_Read nw)) as [response | e'']; simpl.
  2:{ split; [discriminate |].
      intros (_ & _ & _ & _ & [H | (resp & H & _)]);
        [contradiction | discriminate H]. }
  destruct (Go.Contains response (UDPExpectData s)) eqn:Hc; simpl.
  - split; [| reflexivity]. intros _. repeat split; auto.
    right. exists response. auto.
  - split; [discriminate |].
    intros (_ & _ & _ & _ & [H | (resp & H & Hc')]); [contradiction |].
    injection H as <-. congruence.
Qed.

(** X15. The TCP and the UDP probe close the connection they opened,
    once and as their last operation, on every path; when the dial
    fails there is nothing to close and the dial is all they did. *)
Theorem dialled_connection_is_closed (nw : Network) (s : Service)
    (result : HealthcheckResult) (w : World) (udp : bool) :
  let r := if udp then performUDPHealthcheck nw s result w
           else performTCPHealthcheck nw s result w in
  let dial := NetDial (if udp then "udp" else "tcp") (address s)
                (time.seconds (RequestTimeout s)) in
  match outcome (net_Dial nw) with
  | inr _ => net (snd r) = net w ++ [dial]
  | inl _ => exists body, net (snd r) = net w ++ dial :: body ++ [NetClose] /\
                          forallb (fun e => negb (is_close e)) body = true
  end.
Proof.
  intros r dial. subst r dial.
  destruct udp;
    unfold performUDPHealthcheck, performTCPHealthcheck, closing, alive_since,
      failed, bind, Now, netDo, elapse, ret;
    simpl; destruct (outcome (net_Dial nw)); simpl; try reflexivity;
    repeat (simpl; probe_branch); simpl;
    first [ solve [exists []; split;
                     [rewrite <- ?app_assoc; reflexivity | reflexivity]]
          | solve [eexists [_]; split;
                     [rewrite <- ?app_assoc; reflexivity | reflexivity]]
          | solve [eexists [_; _]; split;
                     [rewrite <- ?app_assoc; reflexivity | reflexivity]]
          | solve [eexists [_; _; _]; split;
                     [rewrite <- ?app_assoc; reflexivity | reflexivity]] ].
Qed.

Example dialled_connection_is_closed_witness :
  net (snd (performUDPHealthcheck network_no_host udp_no_data blank_result
              (world_at 0 []))) =
    [NetDial "udp" "h:80" (2 * time.Second)].
Proof.
  exact (dialled_connection_is_closed network_no_host udp_no_data blank_result
           (world_at 0 []) true).
Defined.

(** ** The HTTP probe in a run *)

(** X16. In a run for an HTTP or HTTPS service whose request could be
    built, a response is recorded whatever its code: the result gets the
    code and the time the request took, and the status is the
    classifier's for that code, without an error. A failed request
    leaves the code at 0 and gives [Dead] with the transport's error. *)
Theorem http_response_is_recorded (env : Dispatch) (s : Service) (w : World) :
  let p := probed env s w in
  let began := clock w + took (db_checking env) in
  HealthcheckMethod s = "HTTP" \/ HealthcheckMethod s = "HTTPS" ->
  http_NewRequest (network env) = None ->
  match outcome (http_Do (network env)) with
  | inl code =>
      probe_status p = determineStatus code s /\ probe_error p = None /\
      StatusCode (probe_result p) = code /\
      ResponseTime (probe_result p) =
        time.Milliseconds
          (time.Since (began + took (http_Do (network env))) began)
  | inr e =>
      probe_status p = StatusDead /\ probe_error p = Some e /\
      StatusCode (probe_result p) = 0
  end.
Proof.
  intros p began Hm Hreq. subst p began. rewrite probed_run.
  rewrite beginHealthcheck_run. simpl fst.
  pose proof (updateServiceStatus_state (db_checking env) (ID s)
                StatusChecking w) as (Hclock & _).
  simpl in Hclock.
  set (w1 := snd (updateServiceStatus (db_checking env) (ID s)
                    StatusChecking w)) in *.
  unfold dispatchProbe.
  assert (Hhttp : String.eqb (HealthcheckMethod s) "HTTP" ||
                  String.eqb (HealthcheckMethod s) "HTTPS" = true).
  { destruct Hm as [-> | ->]; reflexivity. }
  rewrite Hhttp.
  unfold performHTTPHealthcheck, failed, probe_status, probe_error,
    probe_result, bind, Now, netDo, elapse, ret.
  rewrite Hreq. simpl.
  destruct (outcome (http_Do (network env))) as [code | e]; simpl.
  - rewrite Hclock. repeat split.
  - repeat split.
Qed.

Example http_response_is_recorded_witness :
  probe_status (probed (dispatch_on network_up) http_mapped
                  (world_at 0 [http_mapped])) = StatusDegraded /\
  StatusCode (probe_result (probed (dispatch_on network_up) http_mapped
                              (world_at 0 [http_mapped]))) = 200.
Proof.
  pose proof (http_response_is_recorded (dispatch_on network_up) http_mapped
                (world_at 0 [http_mapped]) (or_introl eq_refl) eq_refl)
    as (Hst & _ & Hcode & _).
  split; [rewrite Hst; reflexivity | exact Hcode].
Defined.

(** ** The hub's broadcast loop *)

Lemma broadcastHandler_round (write : Conn -> StatusUpdate -> option string)
    (w : World) (u : StatusUpdate) (q : list StatusUpdate) :
  broadcast w = u :: q ->
  exists w', broadcastHandler write w = Some w' /\
             broadcast w' = q /\
             forall c, c ∈ clients w' <-> c ∈ clients w /\ write c u = None.
Proof.
  intros Hq. unfold broadcastHandler. rewrite Hq.
  eexists. split; [reflexivity |]. split.
  - apply forEach_broadcastTo_queue.
  - intros c. rewrite forEach_broadcastTo. simpl.
    rewrite elem_of_elements. split.
    + intros [Hc Hn]. split; [exact Hc |].
      destruct (write c u) eqn:Hw; [| reflexivity].
      exfalso. apply Hn. split; [exact Hc | discriminate].
    + intros [Hc Hw]. split; [exact Hc |]. intros [_ Hf]. contradiction.
Qed.

(** X17. When the hub has worked through its queue, the queue is empty
    and the subscribers left are exactly those to whom every queued
    update could be written; a subscriber is gone as soon as one write
    to it has failed. *)
Theorem drained_hub_keeps_the_healthy_subscribers
    (write : Conn -> StatusUpdate -> option string) (fuel : nat) (w : World) :
  (length (broadcast w) <= fuel)%nat ->
  broadcast (drain write fuel w) = [] /\
  forall c, c ∈ clients (drain write fuel w) <->
            c ∈ clients w /\ forall u, In u (broadcast w) -> write c u = None.
Proof.
  revert w. induction fuel as [| fuel IH]; intros w Hfuel.
  - destruct (broadcast w) as [| u q] eqn:Hq; [| simpl in Hfuel; lia].
    simpl. split; [exact Hq |]. intros c. simpl. tauto.
  - destruct (broadcast w) as [| u q] eqn:Hq.
    + simpl. unfold broadcastHandler. rewrite Hq. split; [exact Hq |].
      intros c. simpl. tauto.
    + destruct (broadcastHandler_round write w u q Hq)
        as (w' & Hround & Hq' & Hclients).
      simpl. rewrite Hround.
      destruct (IH w') as [Hempty Hkept].
      { rewrite Hq'. simpl in Hfuel. lia. }
      split; [exact Hempty |].
      intros c. rewrite Hkept, Hclients, Hq'. simpl. split.
      * intros [[Hc Hu] Hall]. split; [exact Hc |].
        intros u' [<- | Hin]; auto.
      * intros [Hc Hall]. repeat split; auto.
Qed.

Example drained_hub_keeps_the_healthy_subscribers_witness :
  (length (broadcast hub_full) <= 100)%nat /\
  broadcast (drain write_fails_for_2 100 hub_full) = [] /\
  (1 : Conn) ∈ clients (drain write_fails_for_2 100 hub_full) /\
  (2 : Conn) ∉ clients (drain write_fails_for_2 100 hub_full).
Proof.
  assert (Hfuel : (length (broadcast hub_full) <= 100)%nat)
    by (vm_compute; lia).
  destruct (drained_hub_keeps_the_healthy_subscribers write_fails_for_2 100
              hub_full Hfuel) as [Hempty Hkept].
  split; [exact Hfuel |]. split; [exact Hempty |]. split.
  - apply Hkept. split; [set_solver |]. intros u _. reflexivity.
  - rewrite Hkept. intros [_ Hall].
    specialize (Hall update_alive (or_introl eq_refl)). discriminate Hall.
Defined.

(** ** The Kafka probe *)

Lemma topic_listed (topic : string) (topics : list string) :
  existsb (fun t => String.eqb t topic) topics = true <-> In topic topics.
Proof.
  rewrite existsb_exists. split.
  - intros (t & Hin & Heq). apply String.eqb_eq in Heq. by subst.
  - intros Hin. exists topic. split; [exact Hin | apply String.eqb_refl].
Qed.

#[local] Set Warnings "-clear-no-such-hyp".

(** X18. The Kafka probe answers [Alive] exactly when the broker was
    reached and, if a topic is configured, the topic is listed and has
    a partition. It answers [Degraded] exactly when the broker was
    reached, a topic is configured and the list of topics could be read
    but the topic is not usable. Without a topic it is never
    [Degraded]. *)
Theorem kafka_probe_verdict (k : KafkaReplies) (d : Z) (nw : Network)
    (s : Service) (result : HealthcheckResult) (w : World) :
  let st := probe_status (performKafkaHealthcheck k d nw s result w) in
  (st = StatusAlive <->
   broker_reached k /\ (KafkaTopic s = "" \/ topic_usable k (KafkaTopic s))) /\
  (st = StatusDegraded <->
   broker_reached k /\ KafkaTopic s <> "" /\
   (exists topics, kafka_Topics k = inl topics) /\
   ~ topic_usable k (KafkaTopic s)).
Proof.
  intros st. subst st.
  unfold performKafkaHealthcheck, performClientHealthcheck, with_client,
    alive_since, failed, probe_status, bind, Now, netDo, elapse, ret.
  simpl. unfold kafkaSession, broker_reached, topic_usable.
  destruct (kafka_NewClient k) as [e |]; simpl;
    [split; split; first [discriminate | naive_solver] |].
  destruct (kafka_Closed k); simpl;
    [split; split; first [discriminate | naive_solver] |].
  destruct (kafka_Controller k) as [e |]; simpl;
    [split; split; first [discriminate | naive_solver] |].
  destruct (Nat.eqb_spec (kafka_Brokers k) 0) as [Hb | Hb]; simpl;
    [split; split; first [discriminate | naive_solver] |].
  destruct (String.eqb_spec (KafkaTopic s) "") as [Ht | Ht]; simpl;
    [split; split; first [discriminate | reflexivity | naive_solver] |].
  destruct (kafka_Topics k) as [topics | e]; simpl;
    [| split; split; first [discriminate | naive_solver]].
  destruct (existsb (fun topic => String.eqb topic (KafkaTopic s)) topics)
    eqn:Hex; simpl.
  2:{ assert (Hnot : ~ In (KafkaTopic s) topics).
      { intros Hin. apply topic_listed in Hin. congruence. }
      split; split; first [discriminate | reflexivity | naive_solver]. }
  apply topic_listed in Hex.
  destruct (kafka_Partitions k) as [partitions | e]; simpl;
    [| split; split; first [discriminate | reflexivity | naive_solver]].
  destruct partitions as [| p partitions]; simpl;
    split; split; first [discriminate | reflexivity | naive_solver].
Qed.

#[local] Set Warnings "clear-no-such-hyp".

Example kafka_probe_verdict_witness :
  probe_status (performKafkaHealthcheck (broker_with ["t2"]) 0 network_up
                  (kafka_service "t1") blank_result (world_at 0 [])) =
    StatusDegraded.
Proof.
  apply (proj2 (kafka_probe_verdict (broker_with ["t2"]) 0 network_up
                  (kafka_service "t1") blank_result (world_at 0 []))).
  split; [repeat split; discriminate |].
  split; [discriminate |]. split; [by exists ["t2"] |].
  intros (ts & ps & Hts & Hin & _). injection Hts as <-.
  destruct Hin as [H | []]. discriminate H.
Defined.

(** ** The PostgreSQL probe's host *)

Lemma Contains_char (c : Ascii.ascii) (s : string) :
  Go.Contains s (String c "") = true <-> occurs c s.
Proof.
  induction s as [| d s IH]; simpl.
  - split; [discriminate | tauto].
  - rewrite orb_true_iff, IH.
    destruct (Ascii.eqb_spec c d) as [-> | Hne]; simpl.
    + split; [auto | intros _; left].
      destruct s; reflexivity.
    + split; [intros [H | H]; [discriminate | auto] | intros [H | H]; tauto].
Qed.

Lemma Contains_char_false (c : Ascii.ascii) (s : string) :
  Go.Contains s (String c "") = false <-> ~ occurs c s.
Proof.
  rewrite <- Contains_char. destruct (Go.Contains s (String c ""));
    split; intros H; try reflexivity; try discriminate; congruence.
Qed.

Lemma SplitHead_char (c : Ascii.ascii) (h r : string) :
  ~ occurs c h -> SplitHead (h +:+ String c r) (String c "") = h.
Proof.
  induction h as [| d h IH]; simpl; intros Hno.
  - rewrite Ascii.eqb_refl. destruct r; reflexivity.
  - destruct (Ascii.eqb_spec c d) as [-> | Hne]; [tauto |].
    rewrite IH by tauto. reflexivity.
Qed.

Lemma SplitHead_free (c : Ascii.ascii) (s : string) :
  ~ occurs c (SplitHead s (String c "")).
Proof.
  induction s as [| d s IH]; simpl; [tauto |].
  destruct (Ascii.eqb_spec c d) as [-> | Hne]; simpl.
  - destruct s; simpl; tauto.
  - tauto.
Qed.

Lemma SplitHead_occurs (d : Ascii.ascii) (s sep : string) :
  occurs d (SplitHead s sep) -> occurs d s.
Proof.
  induction s as [| c s IH]; simpl.
  - destruct (Go.HasPrefix "" sep); simpl; tauto.
  - destruct (Go.HasPrefix (String c s) sep); simpl; tauto.
Qed.

Lemma occurs_append (c : Ascii.ascii) (a b : string) :
  occurs c (a +:+ b) <-> occurs c a \/ occurs c b.
Proof. induction a as [| d a IH]; simpl; [tauto | rewrite IH; tauto]. Qed.

Lemma SplitHead_absent (c : Ascii.ascii) (s : string) :
  ~ occurs c s -> SplitHead s (String c "") = s.
Proof.
  induction s as [| d s IH]; simpl; intros Hno; [reflexivity |].
  destruct (Ascii.eqb_spec c d) as [-> | Hne]; [tauto |].
  rewrite IH by tauto. reflexivity.
Qed.

Lemma SplitHead_app (c : Ascii.ascii) (h x : string) :
  ~ occurs c h ->
  SplitHead (h +:+ x) (String c "") = h +:+ SplitHead x (String c "").
Proof.
  induction h as [| d h IH]; simpl; intros Hno; [reflexivity |].
  destruct (Ascii.eqb_spec c d) as [-> | Hne]; [tauto |].
  rewrite IH by tauto. reflexivity.
Qed.

(** With the guard of [strings.Contains] or without it, the first field
    is what [SplitHead] gives. *)
Lemma guarded_SplitHead (c : Ascii.ascii) (s : string) :
  (if Go.Contains s (String c "") then SplitHead s (String c "") else s) =
  SplitHead s (String c "").
Proof.
  destruct (Go.Contains s (String c "")) eqn:Hc; [reflexivity |].
  symmetry. apply SplitHead_absent. by apply Contains_char_false.
Qed.

Lemma string_from_append (p t : string) :
  string_from (String.length p) (p +:+ t) = t.
Proof. induction p as [| c p IH]; simpl; [reflexivity | exact IH]. Qed.

Lemma append_empty_r (s : string) : s +:+ "" = s.
Proof.
  induction s as [| c s IH]; [reflexivity |].
  change (String c (s +:+ "") = String c s). by f_equal.
Qed.

(** The first field of [h ++ rest], cut at the slash and then at the
    colon, is [h] when [h] has neither and [rest] ends it. *)
Lemma cut_host (h rest : string) :
  ~ occurs "/"%char h -> ~ occurs ":"%char h -> ends_host rest ->
  SplitHead (SplitHead (h +:+ rest) "/") ":" = h.
Proof.
  intros Hs Hc [-> | [Hr | Hr]].
  - rewrite append_empty_r, (SplitHead_absent "/"%char h Hs).
    apply SplitHead_absent, Hc.
  - apply HasPrefix_spec in Hr. destruct Hr as [r ->].
    change ("/" +:+ r) with (String "/"%char r).
    rewrite (SplitHead_char "/"%char h r Hs). apply SplitHead_absent, Hc.
  - apply HasPrefix_spec in Hr. destruct Hr as [r ->].
    change (":" +:+ r) with (String ":"%char r).
    rewrite (SplitHead_app "/"%char h _ Hs).
    change (SplitHead (String ":"%char r) "/")
      with (String ":"%char (SplitHead r "/")).
    apply (SplitHead_char ":"%char h _ Hc).
Qed.

(** X19. With an empty frontend host URL the PostgreSQL probe connects
    to the service's host. Otherwise it connects to the text of the URL
    before the first slash or colon, after one leading "http://" or
    "https://" has been removed: a URL made of such a scheme, a host
    without slash or colon, and a port or path yields that host; a URL
    without such a scheme yields its text up to the first slash or
    colon, which for another scheme is the scheme's name. *)
Theorem postgres_host_of_frontend_url (s : Service) (h rest : string) :
  ~ occurs "/"%char h -> ~ occurs ":"%char h -> ends_host rest ->
  (FrontendHostURL s = "" -> postgresHost s = Host s) /\
  (FrontendHostURL s = "http://" +:+ h +:+ rest -> postgresHost s = h) /\
  (FrontendHostURL s = "https://" +:+ h +:+ rest -> postgresHost s = h) /\
  (FrontendHostURL s = h +:+ rest -> h +:+ rest <> "" ->
   Go.HasPrefix (h +:+ rest) "http://" = false ->
   Go.HasPrefix (h +:+ rest) "https://" = false ->
   postgresHost s = h).
Proof.
  intros Hs Hc Hrest. unfold postgresHost.
  split; [intros ->; reflexivity |].
  split; [| split].
  - intros ->. cbn -[SplitHead Go.Contains String.append].
    change (string_from 7 ("http://" +:+ h +:+ rest))
      with (h +:+ rest).
    rewrite !guarded_SplitHead. by apply cut_host.
  - intros ->. cbn -[SplitHead Go.Contains String.append].
    change (string_from 8 ("https://" +:+ h +:+ rest))
      with (h +:+ rest).
    rewrite !guarded_SplitHead. by apply cut_host.
  - intros -> Hne H1 H2. rewrite H1, H2.
    rewrite (string_eqb_false _ _ Hne). simpl negb.
    cbv iota. rewrite !guarded_SplitHead. by apply cut_host.
Qed.

Example postgres_host_of_frontend_url_witness :
  postgresHost (postgres_service "https://app.example.com:8443/login") =
    "app.example.com" /\
  postgresHost (postgres_service "ftp://files.example.com/pub") = "ftp".
Proof.
  assert (Hfree : forall (c : Ascii.ascii) (h : string),
             Go.Contains h (String c "") = false -> ~ occurs c h)
    by (intros c h; apply Contains_char_false).
  split.
  - apply (proj1 (proj2 (proj2 (postgres_host_of_frontend_url
             (postgres_service "https://app.example.com:8443/login")
             "app.example.com" ":8443/login"
             (Hfree "/"%char "app.example.com" eq_refl)
             (Hfree ":"%char "app.example.com" eq_refl)
             (or_intror (or_intror eq_refl)))))).
    reflexivity.
  - apply (proj2 (proj2 (proj2 (postgres_host_of_frontend_url
             (postgres_service "ftp://files.example.com/pub")
             "ftp" "://files.example.com/pub"
             (Hfree "/"%char "ftp" eq_refl) (Hfree ":"%char "ftp" eq_refl)
             (or_intror (or_intror eq_refl)))))).
    + reflexivity.
    + discriminate.
    + reflexivity.
    + reflexivity.
Defined.

(** X20. A host taken from the frontend host URL never contains a slash
    or a colon; so an address in brackets or with a port never reaches
    the connection string whole. *)
Theorem postgres_host_has_no_separator (s : Service) :
  FrontendHostURL s <> "" ->
  ~ occurs "/"%char (postgresHost s) /\ ~ occurs ":"%char (postgresHost s).
Proof.
  intros Hne. unfold postgresHost.
  rewrite (string_eqb_false _ _ Hne). simpl negb. cbv iota.
  rewrite !guarded_SplitHead. split.
  - intros H. apply SplitHead_occurs in H. exact (SplitHead_free _ _ H).
  - apply SplitHead_free.
Qed.

Example postgres_host_has_no_separator_witness :
  FrontendHostURL (postgres_service "[::1]:5432") <> "" /\
  ~ occurs ":"%char (postgresHost (postgres_service "[::1]:5432")).
Proof.
  assert (Hne : FrontendHostURL (postgres_service "[::1]:5432") <> "")
    by discriminate.
  split; [exact Hne |].
  exact (proj2 (postgres_host_has_no_separator
                  (postgres_service "[::1]:5432") Hne)).
Defined.

(** ** Editing and deleting services beside the engine *)

Lemma tick_dispatch_in_table (db : Reply unit) (w : World) (s : Service) :
  In s (fst (scheduleTick db w)) -> In s (services w).
Proof.
  unfold scheduleTick, GetAllServices, bind, elapse, Now, logPrintf, ret.
  destruct (outcome db); simpl; [| tauto].
  intros Hs. apply list_elem_of_In, list_elem_of_filter in Hs.
  apply list_elem_of_In. tauto.
Qed.

(** X21. Editing a service changes no row's id, current status or time
    of last check, and leaves the rows of other services as they are;
    and it does not matter whether an edit or a status write reaches
    the table first. *)
Theorem edit_keeps_latest_status (db : Reply unit) (s : Service) (w : World) :
  let w' := snd (UpdateService db s w) in
  map latest (services w') = map latest (services w) /\
  (forall r, In r (services w) -> ID r <> ID s -> In r (services w')) /\
  (forall id st t,
     written id st t (services w') =
     services (snd (UpdateService db s
                      (with_services (written id st t (services w)) w)))).
Proof.
  unfold UpdateService, written, bind, elapse, ret.
  destruct (outcome db) as [u | e]; simpl.
  - split; [| split].
    + rewrite map_map. apply map_ext. intros r.
      destruct (ID r =? ID s); reflexivity.
    + intros r Hin Hne. apply in_map_iff. exists r. split; [| exact Hin].
      destruct (Z.eqb_spec (ID r) (ID s)); [contradiction | reflexivity].
    + intros id st t. rewrite !map_map. apply map_ext. intros r.
      destruct (ID r =? ID s) eqn:Hs; destruct (ID r =? id) eqn:Hid;
        simpl; rewrite ?Hs, ?Hid; reflexivity.
  - split; [reflexivity |]. split; [auto |]. reflexivity.
Qed.

(** X22. After a service has been deleted the table has no row with its
    id and [healthcheck_results] no row that refers to it, while the
    other rows of both stay in their order; a tick starts no probe for
    it; and a status write for it, from a probe that was in flight,
    changes no row. *)
Theorem deleted_service_is_gone (db : Reply unit) (id : Z) (w : World) :
  let w' := snd (DeleteService db id w) in
  err_of db = None ->
  services w' = filter (fun r => ID r <> id) (services w) /\
  healthcheck_results w' =
    filter (fun row => service_id row <> id) (healthcheck_results w) /\
  (forall db' s, In s (fst (scheduleTick db' w')) -> ID s <> id) /\
  (forall db' st,
     services (snd (updateServiceStatus db' id st w')) = services w').
Proof.
  intros w' Hok. subst w'. unfold err_of in Hok.
  unfold DeleteService, bind, elapse, ret.
  destruct (outcome db) as [u | e]; [| discriminate]. simpl.
  assert (Hgone : forall r, In r (filter (fun r => ID r <> id) (services w)) ->
                            ID r <> id).
  { intros r Hr. apply list_elem_of_In, list_elem_of_filter in Hr. tauto. }
  split; [reflexivity |]. split; [reflexivity |]. split.
  - intros db' s Hs.
    match type of Hs with
    | In s (fst (scheduleTick db' ?w1)) =>
        pose proof (tick_dispatch_in_table db' w1 s Hs) as Hin
    end.
    simpl in Hin. exact (Hgone s Hin).
  - intros db' st.
    match goal with
    | |- services (snd (updateServiceStatus db' id st ?w1)) = _ =>
        pose proof (updateServiceStatus_state db' id st w1) as (_ & _ & _ & Hs)
    end.
    simpl in Hs. rewrite Hs.
    destruct (outcome db'); [| reflexivity].
    apply written_absent. exact Hgone.
Qed.

Example edit_keeps_latest_status_witness :
  map latest
    (services (snd (UpdateService db_now slow_service
                      (world_at 9 [touch StatusAlive 5 http_plain])))) =
    [(1, StatusAlive, Some 5)] /\
  In (renumbered 2 http_plain)
    (services (snd (UpdateService db_now slow_service
                      (world_at 9 [http_plain; renumbered 2 http_plain])))).
Proof.
  split.
  - rewrite (proj1 (edit_keeps_latest_status db_now slow_service
                      (world_at 9 [touch StatusAlive 5 http_plain]))).
    reflexivity.
  - apply (proj1 (proj2 (edit_keeps_latest_status db_now slow_service
                           (world_at 9 [http_plain; renumbered 2 http_plain])))).
    + right. left. reflexivity.
    + discriminate.
Defined.

Example deleted_service_is_gone_witness :
  err_of db_now = None /\
  services (snd (DeleteService db_now 1
                   (world_at 0 [http_plain; renumbered 2 http_plain]))) =
    [renumbered 2 http_plain].
Proof.
  split; [reflexivity |].
  rewrite (proj1 (deleted_service_is_gone db_now 1
                    (world_at 0 [http_plain; renumbered 2 http_plain])
                    eq_refl)).
  reflexivity.
Defined.

(** ** The viewer's store *)

Lemma strict_eq_refl_number (n : Z) : JS.strict_eq (JS.Number n) (JS.Number n) = true.
Proof. simpl. apply Z.eqb_refl. Qed.

Lemma get_current_status (v : JS.Value) (o : JS.Object) (k : string) :
  k <> "current_status" ->
  JS.get (<["current_status" := v]> o) k = JS.get o k.
Proof.
  intros Hk. unfold JS.get. rewrite lookup_insert_ne by congruence.
  reflexivity.
Qed.

(** X23. A status message changes the store in one way only: every
    service whose id is strictly equal to the message's service id gets
    the message's status as its current status, and keeps its other
    properties; the other services, their number and their order stay.
    Handling the same message twice is the same as handling it once. *)
Theorem onmessage_sets_the_status (update : JS.Object)
    (services : list JS.Object) :
  let serviceId := JS.or (JS.get update "service_id") (JS.get update "ServiceID") in
  let status := JS.or (JS.get update "status") (JS.get update "Status") in
  let after := JS.onmessage update (Some services) in
  length after = length services /\
  (forall i service,
     services !! i = Some service ->
     exists service',
       after !! i = Some service' /\
       (forall k, k <> "current_status" ->
                  JS.get service' k = JS.get service k) /\
       (JS.strict_eq (JS.get service "id") serviceId = true ->
        JS.get service' "current_status" = status) /\
       (JS.strict_eq (JS.get service "id") serviceId = false ->
        service' = service)) /\
  JS.onmessage update (Some after) = after.
Proof.
  intros serviceId status after. subst after. unfold JS.onmessage.
  fold serviceId status. split; [apply length_map |]. split.
  - intros i service Hi. rewrite list_lookup_fmap, Hi. simpl.
    eexists. split; [reflexivity |].
    destruct (JS.strict_eq (JS.get service "id") serviceId) eqn:Heq.
    + split; [intros k Hk; by apply get_current_status |].
      split; [| discriminate]. intros _. unfold JS.get.
      by rewrite lookup_insert_eq.
    + split; [reflexivity |]. split; [discriminate | reflexivity].
  - rewrite map_map. apply map_ext. intros service.
    destruct (JS.strict_eq (JS.get service "id") serviceId) eqn:Heq.
    + rewrite get_current_status by discriminate. rewrite Heq.
      apply insert_insert_eq.
    + rewrite Heq. reflexivity.
Qed.

Example onmessage_sets_the_status_witness :
  JS.onmessage (JS.wire (update_of 2 StatusDead 0) "2026-01-01T00:00:00Z")
    (Some [viewed 1 "alive"; viewed 2 "alive"]) =
    [viewed 1 "alive"; viewed 2 "dead"].
Proof.
  pose proof (onmessage_sets_the_status
                (JS.wire (update_of 2 StatusDead 0) "2026-01-01T00:00:00Z")
                [viewed 1 "alive"; viewed 2 "alive"]) as (_ & Hat & _).
  destruct (Hat 0%nat (viewed 1 "alive") eq_refl) as (s1 & H1 & _ & _ & Hsame).
  destruct (Hat 1%nat (viewed 2 "alive") eq_refl) as (s2 & H2 & _).
  vm_compute. reflexivity.
Defined.

Lemma wire_fields (u : StatusUpdate) (stamp : string) :
  JS.get (JS.wire u stamp) "service_id" = JS.Number (su_ServiceID u) /\
  JS.get (JS.wire u stamp) "ServiceID" = JS.Undefined /\
  JS.or (JS.get (JS.wire u stamp) "status") (JS.get (JS.wire u stamp) "Status") =
    JS.Str (ServiceStatus_string (su_Status u)).
Proof.
  unfold JS.wire, JS.get, JS.or. repeat split.
  destruct (su_Status u); reflexivity.
Qed.

Lemma strict_eq_undefined (v : JS.Value) :
  JS.strict_eq v JS.Undefined = true -> v = JS.Undefined.
Proof. destruct v; simpl; intros H; try discriminate; reflexivity. Qed.

(** X24. A status update that the hub writes for a service id other
    than 0 reaches the viewer: every service in the store with that id
    shows the update's status afterwards. Of two updates for the same
    service the later one is the one shown. An update for the id 0 is
    lost on every service that has an id. *)
Theorem published_status_reaches_the_viewer (u : StatusUpdate)
    (stamp : string) (services : list JS.Object) :
  let after := JS.onmessage (JS.wire u stamp) (Some services) in
  (su_ServiceID u <> 0 ->
   forall i service,
     services !! i = Some service ->
     JS.get service "id" = JS.Number (su_ServiceID u) ->
     exists service',
       after !! i = Some service' /\
       JS.get service' "current_status" =
         JS.Str (ServiceStatus_string (su_Status u))) /\
  (forall u' stamp',
     su_ServiceID u' = su_ServiceID u ->
     JS.onmessage (JS.wire u' stamp') (Some after) =
     JS.onmessage (JS.wire u' stamp') (Some services)) /\
  (su_ServiceID u = 0 ->
   (forall service, In service services ->
                    JS.get service "id" <> JS.Undefined) ->
   after = services).
Proof.
  intros after. subst after. unfold JS.onmessage.
  destruct (wire_fields u stamp) as (Hid & Hid' & ->).
  rewrite Hid, Hid'. simpl JS.or at 1. split; [| split].
  - intros Hne i service Hi Hsid.
    unfold JS.or. simpl JS.truthy.
    destruct (Z.eqb_spec (su_ServiceID u) 0) as [H0 | _]; [contradiction |].
    simpl negb. cbv iota.
    rewrite list_lookup_fmap, Hi. simpl. rewrite Hsid, strict_eq_refl_number.
    eexists. split; [reflexivity |]. unfold JS.get.
    by rewrite lookup_insert_eq.
  - intros u' stamp' Hsame.
    destruct (wire_fields u' stamp') as (Hu & Hu' & ->).
    rewrite Hu, Hu', Hsame. rewrite map_map. apply map_ext. intros service.
    set (sid := JS.or (JS.Number (su_ServiceID u)) JS.Undefined).
    destruct (JS.strict_eq (JS.get service "id") sid) eqn:Heq.
    + rewrite get_current_status by discriminate. rewrite Heq.
      apply insert_insert_eq.
    + rewrite Heq. reflexivity.
  - intros H0 Hids. rewrite H0.
    change (JS.or (JS.Number 0) JS.Undefined) with JS.Undefined.
    rewrite <- (map_id services) at 2. apply map_ext_in.
    intros service Hin.
    destruct (JS.strict_eq (JS.get service "id") JS.Undefined) eqn:Heq;
      [| reflexivity].
    apply strict_eq_undefined in Heq. exfalso. exact (Hids service Hin Heq).
Qed.

Example published_status_reaches_the_viewer_witness :
  su_ServiceID (update_of 2 StatusDead 0) <> 0 /\
  exists service',
    JS.onmessage (JS.wire (update_of 2 StatusDead 0) "2026-01-01T00:00:00Z")
      (Some [viewed 1 "alive"; viewed 2 "alive"]) !! 1%nat = Some service' /\
    JS.get service' "current_status" = JS.Str "dead".
Proof.
  assert (Hne : su_ServiceID (update_of 2 StatusDead 0) <> 0) by discriminate.
  split; [exact Hne |].
  exact (proj1 (published_status_reaches_the_viewer
                  (update_of 2 StatusDead 0) "2026-01-01T00:00:00Z"
                  [viewed 1 "alive"; viewed 2 "alive"]) Hne 1%nat
           (viewed 2 "alive") eq_refl eq_refl).
Defined.

(** ** The ICMP probe and counts that end in 0 *)

Lemma string_app_assoc (a b c : string) : (a +:+ b) +:+ c = a +:+ b +:+ c.
Proof.
  induction a as [| x a IH]; [reflexivity |].
  change (String x ((a +:+ b) +:+ c) = String x (a +:+ b +:+ c)).
  by f_equal.
Qed.

Lemma string_of_uint_revapp (l acc : Decimal.uint) :
  NilEmpty.string_of_uint (Decimal.revapp l acc) =
  NilEmpty.string_of_uint (Decimal.rev l) +:+ NilEmpty.string_of_uint acc.
Proof.
  revert acc. unfold Decimal.rev.
  induction l as [| l IH | l IH | l IH | l IH | l IH | l IH | l IH | l IH
                  | l IH | l IH]; intros acc; simpl; [reflexivity | ..];
    rewrite IH; symmetry; rewrite IH;
    rewrite string_app_assoc; reflexivity.
Qed.

Lemma revapp_not_nil (l acc : Decimal.uint) :
  acc <> Decimal.Nil -> Decimal.revapp l acc <> Decimal.Nil.
Proof.
  revert acc.
  induction l; intros acc Hacc; simpl; try exact Hacc; apply IHl; discriminate.
Qed.

(** The decimal numeral of a positive multiple of ten ends in 0. *)
Lemma Itoa_tenfold (k : Z) :
  0 < k -> exists digits, Go.Itoa (10 * k) = digits +:+ "0".
Proof.
  intros Hk. destruct k as [| p | p]; try lia.
  exists (NilEmpty.string_of_uint (Decimal.rev (Pos.to_little_uint p))).
  change (10 * Z.pos p) with (Z.pos (10 * p)).
  unfold Go.Itoa, Z.to_int, Pos.to_uint. simpl NilZero.string_of_int.
  pose proof (DecimalPos.Unsigned.to_ldec_tenfold p) as Hten.
  unfold DecimalPos.Unsigned.to_lu in Hten. simpl in Hten. rewrite Hten.
  unfold Decimal.rev. simpl Decimal.revapp.
  unfold NilZero.string_of_uint.
  destruct (Decimal.revapp (Pos.to_little_uint p) (Decimal.D0 Decimal.Nil))
    eqn:Hrev;
    try (rewrite <- Hrev; apply (string_of_uint_revapp _ (Decimal.D0 Decimal.Nil))).
  exfalso. revert Hrev. apply revapp_not_nil. discriminate.
Qed.

(** X25. When ping reports a received count that is a positive multiple
    of ten, as in "10 packets transmitted, 10 received", the probe
    answers [Dead]: the count's last digit makes the output contain
    "0 received". *)
Theorem ping_with_ten_received_is_dead (nw : Network) (s : Service)
    (result : HealthcheckResult) (w : World) (k : Z) (before after : string) :
  0 < k ->
  cmd_err (cmd_CombinedOutput nw) = None ->
  cmd_output (cmd_CombinedOutput nw) =
    before +:+ Go.Itoa (10 * k) +:+ " received" +:+ after ->
  probe_status (performICMPHealthcheck nw s result w) = StatusDead.
Proof.
  intros Hk Herr Hout.
  destruct (Itoa_tenfold k Hk) as [digits Hdigits].
  assert (Hc : Go.Contains (cmd_output (cmd_CombinedOutput nw)) "0 received"
               = true).
  { apply Contains_spec. exists (before +:+ digits), after.
    rewrite Hout, Hdigits, !string_app_assoc. reflexivity. }
  unfold performICMPHealthcheck, probe_status, failed, bind, Now, netDo,
    elapse, ret.
  simpl. rewrite Herr, Hc. reflexivity.
Qed.

Example ping_with_ten_received_is_dead_witness :
  probe_status
    (performICMPHealthcheck
       (network_of (ok 0 200) (ok 0 tt) ping_ten) icmp_fifty blank_result
       (world_at 0 [])) = StatusDead.
Proof.
  apply (ping_with_ten_received_is_dead
           (network_of (ok 0 200) (ok 0 tt) ping_ten) icmp_fifty blank_result
           (world_at 0 []) 1 "10 packets transmitted, " ", 0% packet loss").
  - reflexivity.
  - reflexivity.
  - reflexivity.
Defined.

(** ** The request of the HTTP probe *)



(** ** The DNS match rules and the latency of a probe, on examples *)

Example performDNSHealthcheck_match_rules_witness :
  DNSQueryType dns_a_expected = "A" /\
  probe_status (performDNSHealthcheck network_up dns_a_expected blank_result
                  (world_at 0 [])) = StatusAlive.
Proof.
  split; [reflexivity |].
  apply (proj1 (performDNSHealthcheck_match_rules network_up dns_a_expected
                  blank_result (world_at 0 [])) eq_refl).
  exists ["10.0.0.1"; "10.0.0.2"]. split; [reflexivity |].
  right. left. reflexivity.
Defined.

Example successful_probe_latency_witness :
  probe_error (probed (dispatch_on network_up) http_plain
                 (world_at 0 [http_plain])) = None /\
  ResponseTime (probe_result (probed (dispatch_on network_up) http_plain
                                (world_at 0 [http_plain]))) = 50.
Proof.
  split; [reflexivity |].
  rewrite (successful_probe_latency (dispatch_on network_up) http_plain
             (world_at 0 [http_plain]) eq_refl).
  reflexivity.
Defined.
